(** * gratoms back office: ROI accrual e-mail and admin withdrawal controller

    A shallow embedding of

    - [server/modules/invest/accuralEmail.js] (module [AccrualEmail]) and
    - [controllers/adminWithdrawalController.js] (module
      [AdminWithdrawalController]),

    followed by the properties of the specification that concern them
    (modules [AccrualEmailFacts] and [AdminWithdrawalFacts]; claims are
    referred to as C1 to C10), and by further properties of the same code
    (modules [AdminWithdrawalMore] and [AccrualEmailMore], X1 to X21).

    JavaScript values, exceptions and the [async] handlers are modelled in
    module [Js]: a handler is a function from a state to an outcome (a value
    or a thrown error) and a new state.  The relational store is a pair of
    tables; a transaction works on a copy of them that [commit] installs and
    [rollback] drops, and every call on the store may be refused with an
    error, which the handler sees as an exception. *)

From Stdlib Require Import ZArith List String Ascii Bool Lia.
From Stdlib Require Import DecimalString Permutation Sorted.
From Stdlib Require DecimalPos DecimalN.
Import ListNotations.
Local Open Scope string_scope.
Local Open Scope Z_scope.

(* ================================================================== *)
(** * JavaScript in the small *)
(* ================================================================== *)

Module Js.

(** Errors that the code throws or catches. *)
Inductive JsError : Type :=
  | Error (message : string)
  | TypeError (message : string).

(** [console.log] and [console.error] lines. *)
Inductive LogEntry : Type :=
  | ConsoleLog (text : string)
  | ConsoleError (text : string) (cause : JsError).

(** Result of running a piece of code that may throw. *)
Inductive Outcome (A : Type) : Type :=
  | Returned (a : A)
  | Thrown (e : JsError).
Arguments Returned {A} a.
Arguments Thrown {A} e.

(** State and exception monad: [S] is the state the code can touch. *)
Definition M (S A : Type) : Type := S -> Outcome A * S.

Definition ret {S A} (a : A) : M S A := fun s => (Returned a, s).

Definition throw {S A} (e : JsError) : M S A := fun s => (Thrown e, s).

(** An expression that touches no state: its value, or what it throws. *)
Definition settled {S A} (o : Outcome A) : M S A := fun s => (o, s).

Definition bind {S A B} (m : M S A) (k : A -> M S B) : M S B :=
  fun s =>
    match m s with
    | (Returned a, s') => k a s'
    | (Thrown e, s') => (Thrown e, s')
    end.

(** [try { body } catch (error) { handler }] *)
Definition try_catch {S A} (body : M S A) (handler : JsError -> M S A) : M S A :=
  fun s =>
    match body s with
    | (Returned a, s') => (Returned a, s')
    | (Thrown e, s') => handler e s'
    end.

Declare Scope js_scope.
Delimit Scope js_scope with js.
Notation "x <- m ;; k" := (bind m (fun x => k))
  (at level 61, m at next level, right associativity) : js_scope.
Notation "m ;; k" := (bind m (fun _ => k))
  (at level 61, right associativity) : js_scope.

(** Values a JSON request body can hold in a field the code inspects. *)
Inductive JsValue : Type :=
  | JUndefined
  | JNull
  | JBool (b : bool)
  | JNumber (n : Z)
  | JString (s : string).

(** ToBoolean, as used by [!v] and [if (v)]. *)
Definition truthy (v : JsValue) : bool :=
  match v with
  | JUndefined | JNull => false
  | JBool b => b
  | JNumber n => negb (n =? 0)
  | JString s => negb (s =? "")%string
  end.

(** ToBoolean of an optional string (a query or body field that is a string
    when present). *)
Definition truthy_str (v : option string) : bool :=
  match v with
  | None => false
  | Some s => negb (s =? "")%string
  end.

(** [xs.includes(v)] for an array of strings: only a string can be found. *)
Definition includes (xs : list string) (v : JsValue) : bool :=
  match v with
  | JString s => existsb (String.eqb s) xs
  | _ => false
  end.

(** [v === s] for a string [s]. *)
Definition strict_eq (v : JsValue) (s : string) : bool :=
  match v with
  | JString t => (t =? s)%string
  | _ => false
  end.

(** [xs.join(sep)] *)
Fixpoint join (sep : string) (xs : list string) : string :=
  match xs with
  | [] => ""
  | [x] => x
  | x :: rest => x ++ sep ++ join sep rest
  end.

(** ** Numbers

    A Number is NaN, an infinity, or a finite double; a finite double is an
    integer times a power of two, [mant * 2 ^ expo], and that exact value is
    all that [toFixed] looks at. *)
Inductive JsNum : Type :=
  | NaN
  | Infinity (negative : bool)
  | Finite (mant expo : Z).

(** The Number that an integer becomes when JavaScript reads it: the
    integer itself below 2^53 in magnitude, else the nearest double, which has
    53 significant bits, the one with an even last bit of two that are
    equally near, and an infinity from 2^1024 on. *)
Definition to_Number (x : Z) : JsNum :=
  let a := Z.abs x in
  if a <? 2 ^ 53 then Finite x 0
  else
    let e := Z.log2 a - 52 in
    let q := a / 2 ^ e in
    let r := a mod 2 ^ e in
    let m := if (2 ^ e <? 2 * r) || ((2 ^ e =? 2 * r) && Z.odd q)
             then q + 1 else q in
    if 2 ^ 1024 <=? m * 2 ^ e then Infinity (x <? 0)
    else Finite (Z.sgn x * m) e.


(** Decimal digits of a natural number, ["0"] for zero. *)
Definition decimal (n : N) : string := NilZero.string_of_uint (N.to_uint n).

(** Zeros in front until the length is at least [k]. *)
Fixpoint zeros (k : nat) : string :=
  match k with
  | O => ""
  | S k' => String "0" (zeros k')
  end.

Definition pad_zeros (k : nat) (s : string) : string :=
  zeros (k - String.length s) ++ s.

(** Is the value [mant * 2 ^ expo], with [0 <= mant], at least [bound]? *)
Definition at_least (mant expo bound : Z) : bool :=
  if 0 <=? expo then bound <=? mant * 2 ^ expo
  else bound * 2 ^ (- expo) <=? mant.

(** The integer [n] for which [n / 10 ^ f - x] is closest to zero, the larger
    one of two, for [x = mant * 2 ^ expo >= 0]. *)
Definition scaled_round (mant expo : Z) (f : nat) : Z :=
  if 0 <=? expo then mant * 2 ^ expo * 10 ^ Z.of_nat f
  else (2 * mant * 10 ^ Z.of_nat f + 2 ^ (- expo)) / (2 * 2 ^ (- expo)).

(** [Number.prototype.toFixed(f)], for [0 <= f <= 100].  A value that is not
    finite is printed by name; one of magnitude 10^21 or more is printed by
    Number::toString, [number_toString] here, in exponent form. *)
Definition toFixed (number_toString : JsNum -> string) (x : JsNum) (f : nat)
  : string :=
  match x with
  | NaN => "NaN"
  | Infinity false => "Infinity"
  | Infinity true => "-Infinity"
  | Finite mant expo =>
      let s := if mant <? 0 then "-" else "" in
      let a := Z.abs mant in
      if at_least a expo (10 ^ 21) then s ++ number_toString (Finite a expo)
      else
        let n := scaled_round a expo f in
        let m := pad_zeros (f + 1) (decimal (Z.to_N n)) in
        let k := String.length m in
        match f with
        | O => s ++ m
        | _ => s ++ substring 0 (k - f) m ++ "." ++ substring (k - f) f m
        end
  end.

(** Number of positions of [s] at which [pat] starts. *)
Fixpoint occurrences (pat s : string) : nat :=
  match s with
  | EmptyString => if prefix pat "" then 1 else 0
  | String _ rest => ((if prefix pat s then 1 else 0) + occurrences pat rest)%nat
  end.

(** The double-quote character, and text in which a backquote stands for
    it: a template literal is delimited by backquotes and so holds none of
    its own. *)
Definition dquote : ascii := Ascii.ascii_of_nat 34.

Fixpoint unq (s : string) : string :=
  match s with
  | EmptyString => EmptyString
  | String c rest => String (if Ascii.eqb c "`"%char then dquote else c) (unq rest)
  end.

End Js.

(* ================================================================== *)
(** * server/modules/invest/accuralEmail.js *)
(* ================================================================== *)

Module AccrualEmail.
Import Js.
Local Open Scope js_scope.

(** A value passed as [roiAmount].  Nothing checks it before the template
    calls its [toFixed]: a Number has the method; [undefined] and [null] have
    no properties; a string (a DECIMAL column read from the store, say) or a
    boolean has no such method.  An object with a [toFixed] of its own is
    not among the values considered. *)
Inductive Amount : Type :=
  | ANumber (x : JsNum)
  | AUndefined
  | ANull
  | AString (s : string)
  | ABool (b : bool).

(** The argument object of [roiAccrualEmail], with an amount of type [A]:
    the date is a timestamp, the rest text. *)
Record Fields (A : Type) : Type := {
  email : string;
  planName : string;
  roiAmount : A;
  transactionId : string;
  date : Z;
  investmentId : string
}.
Arguments Build_Fields {A}.
Arguments email {A} _.
Arguments planName {A} _.
Arguments roiAmount {A} _.
Arguments transactionId {A} _.
Arguments date {A} _.
Arguments investmentId {A} _.

(** The argument object as a caller passes it, and the one whose amount is
    known to be a Number. *)
Definition Passed : Type := Fields Amount.
Definition Args : Type := Fields JsNum.

Definition with_amount {A B} (p : Fields A) (x : B) : Fields B :=
  {| email := email p; planName := planName p; roiAmount := x;
     transactionId := transactionId p; date := date p;
     investmentId := investmentId p |}.

(** Looking up [roiAmount.toFixed], the first thing the template evaluates:
    the arguments with their Number, or the TypeError of the engine. *)
Definition with_Number_amount (p : Passed) : Outcome Args :=
  match roiAmount p with
  | ANumber x => Returned (with_amount p x)
  | AUndefined =>
      Thrown (TypeError "Cannot read properties of undefined (reading 'toFixed')")
  | ANull =>
      Thrown (TypeError "Cannot read properties of null (reading 'toFixed')")
  | AString _ | ABool _ =>
      Thrown (TypeError "roiAmount.toFixed is not a function")
  end.

(** What is handed to [transporter.sendMail]. *)
Record MailOptions : Type := {
  from : option string;
  to : string;
  subject : string;
  html : string
}.

(** What the function reads from its surroundings: the sender address of the
    process environment, the built-ins that depend on the locale, the clock
    and the number printer, and the mail transport required from
    [utils/nodemailer], whose [sendMail] either succeeds or fails with an
    error. *)
Record Runtime : Type := {
  EMAIL_USER : option string;
  number_toString : JsNum -> string;
  toLocaleDateString : Z -> string;
  getFullYear : N;
  sendMail : MailOptions -> option JsError
}.

(** What the function leaves behind: console lines and the mails handed to
    the transport, oldest first. *)
Record World : Type := {
  console : list LogEntry;
  outbox : list MailOptions
}.

Definition console_log (text : string) : M World unit :=
  fun w => (Returned tt,
            {| console := console w ++ [ConsoleLog text]; outbox := outbox w |}).

Definition console_error (text : string) (cause : JsError) : M World unit :=
  fun w => (Returned tt,
            {| console := console w ++ [ConsoleError text cause];
               outbox := outbox w |}).

(** [await transporter.sendMail(mailOptions)] *)
Definition transporter_sendMail (rt : Runtime) (mailOptions : MailOptions)
  : M World unit :=
  fun w =>
    let w' := {| console := console w; outbox := outbox w ++ [mailOptions] |} in
    match sendMail rt mailOptions with
    | None => (Returned tt, w')
    | Some e => (Thrown e, w')
    end.

(** The literal text of the template between its placeholders, in order. *)
Definition html_part0 : string := unq "
            <!DOCTYPE html>
            <html>
            <head>
              <meta charset=`UTF-8`>
              <meta name=`viewport` content=`width=device-width, initial-scale=1.0`>
              <title>Daily ROI Credit - Gratoms</title>
              <style>
                body { font-family: 'Segoe UI', Tahoma, Geneva, Verdana, sans-serif; line-height: 1.6; color: #333; max-width: 600px; margin: 0 auto; padding: 20px; background-color: #f9f9f9; }
                .header { background: linear-gradient(135deg, #8b5cf6 0%, #7c3aed 100%); padding: 30px; text-align: center; border-radius: 10px 10px 0 0; }
                .logo { color: white; font-size: 28px; font-weight: bold; margin: 0; }
                .content { background: white; padding: 30px; border-radius: 0 0 10px 10px; box-shadow: 0 4px 6px rgba(0, 0, 0, 0.1); }
                .status-badge { 
                  background: #10b981; color: white; padding: 8px 16px; border-radius: 20px; 
                  font-size: 14px; font-weight: bold; display: inline-block; margin-bottom: 20px;
                }
                .amount { font-size: 32px; font-weight: bold; color: #7c3aed; margin: 10px 0; }
                .investment-details { background: #faf5ff; padding: 20px; border-radius: 8px; margin: 20px 0; }
                .detail-row { display: flex; justify-content: space-between; padding: 8px 0; border-bottom: 1px solid #ede9fe; }
                .detail-row:last-child { border-bottom: none; }
                .progress-bar { background: #ede9fe; height: 8px; border-radius: 4px; margin: 15px 0; overflow: hidden; }
                .progress-fill { background: linear-gradient(90deg, #8b5cf6 0%, #7c3aed 100%); height: 100%; width: 0%; transition: width 2s; }
                .footer { text-align: center; margin-top: 30px; padding-top: 20px; border-top: 1px solid #e2e8f0; color: #718096; }
              </style>
            </head>
            <body>
              <div class=`header`>
                <h1 class=`logo`>💰 Daily ROI Credited</h1>
              </div>
              
              <div class=`content`>
                <div class=`status-badge`>✅ CREDITED</div>
                
                <p>Your daily ROI has been successfully credited to your account.</p>
                
                <div style=`text-align: center; margin: 30px 0;`>
                  <div class=`amount`>".

Definition html_part1 : string := unq " USD</div>
                  <p>credited for <strong>".

Definition html_part2 : string := unq "</strong></p>
                </div>
        
                <div class=`investment-details`>
                  <h3 style=`margin-top: 0;`>Transaction Details</h3>
                  <div class=`detail-row`>
                    <span>Transaction ID:</span>
                    <span><strong>".

Definition html_part3 : string := unq "</strong></span>
                  </div>
                  <div class=`detail-row`>
                    <span>Investment ID:</span>
                    <span><strong>".

Definition html_part4 : string := unq "</strong></span>
                  </div>
                  <div class=`detail-row`>
                    <span>Plan Name:</span>
                    <span><strong>".

Definition html_part5 : string := unq "</strong></span>
                  </div>
                  <div class=`detail-row`>
                    <span>ROI Amount:</span>
                    <span><strong>".

Definition html_part6 : string := unq " USD</strong></span>
                  </div>
                  <div class=`detail-row`>
                    <span>Date:</span>
                    <span><strong>".

Definition html_part7 : string := unq "</strong></span>
                  </div>
                </div>
        
                <div class=`progress-bar`>
                  <div class=`progress-fill` style=`width: 0%`></div>
                </div>
                <p style=`text-align: center; color: #6b7280;`>Your investment is growing daily</p>
        
                <p><strong>💡 Tip:</strong> Check your transaction history in your dashboard for more details.</p>
              </div>
              
              <div class=`footer`>
                <p>© ".

Definition html_part8 : string := unq " Gratoms. All rights reserved.</p>
                <p>Happy investing! 📊</p>
              </div>
          
              <script>
                setTimeout(() => {
                  document.querySelector('.progress-fill').style.width = '100%';
                }, 1000);
              </script>
            </body>
            </html>
          ".

(** The template literal of [mailOptions.html]. *)
Definition render_html (rt : Runtime) (a : Args) : string :=
  html_part0 ++ toFixed (number_toString rt) (roiAmount a) 2
  ++ html_part1 ++ planName a
  ++ html_part2 ++ transactionId a
  ++ html_part3 ++ investmentId a
  ++ html_part4 ++ planName a
  ++ html_part5 ++ toFixed (number_toString rt) (roiAmount a) 2
  ++ html_part6 ++ toLocaleDateString rt (date a)
  ++ html_part7 ++ decimal (getFullYear rt)
  ++ html_part8.

Definition build_mailOptions (rt : Runtime) (a : Args) : MailOptions :=
  {| from := EMAIL_USER rt;
     to := email a;
     subject := "Daily ROI Credit - Gratoms";
     html := render_html rt a |}.

(** The object [mailOptions] is built inside the [try]: an amount without
    [toFixed] throws there, before anything is handed to the transport. *)
Definition roiAccrualEmail (rt : Runtime) (p : Passed) : M World unit :=
  try_catch
    (a <- settled (with_Number_amount p) ;;
     let mailOptions := build_mailOptions rt a in
     transporter_sendMail rt mailOptions ;;
     console_log ("ROI accrual email sent to " ++ email p
                  ++ " for transaction " ++ transactionId p))
    (fun error =>
       console_error "ROI email sending error:" error ;;
       throw (Error "Failed to send ROI email")).

End AccrualEmail.

(* ================================================================== *)
(** * controllers/adminWithdrawalController.js *)
(* ================================================================== *)

Module AdminWithdrawalController.
Import Js.
Local Open Scope js_scope.

(** ** The models required from [../../model] *)

(** Modelled from the spec: the User model of [../../model], a module whose
    source is not at hand: identifier, email, username and wallet balance.
    Money is counted in the smallest unit of the currency. *)
Record User : Type := {
  user_id : string;
  user_email : string;
  user_username : string;
  walletBalance : Z
}.

(** Modelled from the spec: the Withdrawal model of [../../model], a module
    whose source is not at hand, with the columns the controller names.  The
    status is the text the controller compares and writes; timestamps are
    instants on the clock, absent while the column is null. *)
Record Withdrawal : Type := {
  w_id : string;
  transaction_id : string;
  amount : Z;
  withdrawalMethod : string;
  walletAddress : string;
  status : string;
  createdAt : Z;
  processed_at : option Z;
  completed_at : option Z;
  userId : string;
  admin_notes : option string;
  processed_by : option string
}.

(** The [include] of both queries: the owning user, attributes
    [id], [email], [username]. *)
Record UserInclude : Type := {
  inc_id : string;
  inc_email : string;
  inc_username : string
}.

(** A Withdrawal instance loaded by [findByPk] with its [user]. *)
Record WithdrawalInstance : Type := {
  values : Withdrawal;
  user : option UserInclude
}.

(** A row of [findAll] in [getAllWithdrawals]: the ten listed attributes and
    the [user]. *)
Record ListedWithdrawal : Type := {
  l_id : string;
  l_transaction_id : string;
  l_amount : Z;
  l_withdrawalMethod : string;
  l_walletAddress : string;
  l_status : string;
  l_createdAt : Z;
  l_processed_at : option Z;
  l_completed_at : option Z;
  l_userId : string;
  l_user : option UserInclude
}.

(** A row of the grouped query of [getWithdrawalStats] as the store
    computes it, with the exact sum of the amounts. *)
Record StatRow : Type := {
  stat_status : string;
  stat_count : nat;
  stat_totalAmount : Z
}.

(** The row as [findAll] hands it to the handler: the sum is a Number. *)
Record Stat : Type := {
  st_status : string;
  st_count : nat;
  st_totalAmount : JsNum
}.

(** The two tables. *)
Record Database : Type := {
  Withdrawals : list Withdrawal;
  Users : list User
}.

(** ** Requests and responses *)

Record AuthUser : Type := { auth_id : string }.

Record Request : Type := {
  params_id : string;
  query_status : option string;
  query_userId : option string;
  body_status : JsValue;
  body_adminNotes : option string;
  req_user : option AuthUser
}.

Inductive Payload : Type :=
  | NoData
  | WithdrawalList (withdrawals : list ListedWithdrawal) (total : nat)
  | WithdrawalData (withdrawal : WithdrawalInstance)
  | StatsData (stats : list Stat) (totalWithdrawals : nat)
      (totalAmount : JsNum).

(** [res.status(code).json({ success, message, data })] *)
Record Response : Type := {
  status_code : nat;
  success : bool;
  message : string;
  data : Payload
}.

Definition json (code : nat) (ok : bool) (msg : string) (d : Payload) : Response :=
  {| status_code := code; success := ok; message := msg; data := d |}.

(** Modelled from the spec: [sendErrorResponse] of [../../utils/commonUtils],
    a module whose source is not at hand: the envelope with the given code,
    no success and the generic message; the error itself stays on the
    server. *)
Definition sendErrorResponse (code : nat) (msg : string) (error : JsError)
  : Response :=
  json code false msg NoData.

(** ** The store *)

(** Calls on the store, as the controller issues them. *)
Inductive DbOp : Type :=
  | OpTransaction
  | OpCommit
  | OpRollback
  | OpFindByPk (id : string)
  | OpUserIncrement (id : string) (by_amount : Z)
  | OpWithdrawalUpdate (id : string)
  | OpFindAll (where_status where_userId : option string)
  | OpFindAllByStatus
  | OpCount
  | OpSum.

Definition is_write (op : DbOp) : bool :=
  match op with
  | OpUserIncrement _ _ | OpWithdrawalUpdate _ => true
  | _ => false
  end.

Definition is_row_access (op : DbOp) : bool :=
  match op with
  | OpTransaction | OpCommit | OpRollback => false
  | _ => true
  end.

(** The world of a request: the committed tables, the tables as the open
    transaction sees them (if one is open), the calls made on the store and
    the console, both oldest first, and the number of clock readings. *)
Record World : Type := {
  committed : Database;
  transaction : option Database;
  trace : list DbOp;
  console : list LogEntry;
  ticks : nat
}.

Definition initial (db : Database) : World :=
  {| committed := db; transaction := None; trace := []; console := [];
     ticks := 0 |}.

Definition with_transaction (t : option Database) (w : World) : World :=
  {| committed := committed w; transaction := t; trace := trace w;
     console := console w; ticks := ticks w |}.

Definition with_committed (d : Database) (w : World) : World :=
  {| committed := d; transaction := transaction w; trace := trace w;
     console := console w; ticks := ticks w |}.

Definition traced (op : DbOp) (w : World) : World :=
  {| committed := committed w; transaction := transaction w;
     trace := trace w ++ [op]; console := console w; ticks := ticks w |}.

Definition console_log (text : string) : M World unit :=
  fun w => (Returned tt,
            {| committed := committed w; transaction := transaction w;
               trace := trace w; console := console w ++ [ConsoleLog text];
               ticks := ticks w |}).

Definition console_error (text : string) (cause : JsError) : M World unit :=
  fun w => (Returned tt,
            {| committed := committed w; transaction := transaction w;
               trace := trace w;
               console := console w ++ [ConsoleError text cause];
               ticks := ticks w |}).

(** The tables a query sees: those of the open transaction, else the
    committed ones. *)
Definition visible (w : World) : Database :=
  match transaction w with
  | Some d => d
  | None => committed w
  end.

(** A write goes to the open transaction, else straight to the committed
    tables. *)
Definition written (f : Database -> Database) (w : World) : World :=
  match transaction w with
  | Some d => with_transaction (Some (f d)) w
  | None => with_committed (f (committed w)) w
  end.

Definition project_user (u : User) : UserInclude :=
  {| inc_id := user_id u; inc_email := user_email u;
     inc_username := user_username u |}.

Definition find_user (id : string) (db : Database) : option User :=
  find (fun u => (user_id u =? id)%string) (Users db).

Definition find_withdrawal (id : string) (db : Database) : option Withdrawal :=
  find (fun r => (w_id r =? id)%string) (Withdrawals db).

Definition load_instance (db : Database) (r : Withdrawal) : WithdrawalInstance :=
  {| values := r; user := option_map project_user (find_user (userId r) db) |}.

Definition listed (db : Database) (r : Withdrawal) : ListedWithdrawal :=
  {| l_id := w_id r;
     l_transaction_id := transaction_id r;
     l_amount := amount r;
     l_withdrawalMethod := withdrawalMethod r;
     l_walletAddress := walletAddress r;
     l_status := status r;
     l_createdAt := createdAt r;
     l_processed_at := processed_at r;
     l_completed_at := completed_at r;
     l_userId := userId r;
     l_user := option_map project_user (find_user (userId r) db) |}.

(** [where: whereClause]: a key that is set must match. *)
Definition matches (where_status where_userId : option string) (r : Withdrawal)
  : bool :=
  match where_status with
  | Some s => (status r =? s)%string
  | None => true
  end
  &&
  match where_userId with
  | Some u => (userId r =? u)%string
  | None => true
  end.

(** [order: [['createdAt', 'DESC']]]: newest first; rows of one creation
    time, whose order the store is free to choose, keep theirs. *)
Definition created_desc (a b : Withdrawal) : bool :=
  createdAt b <=? createdAt a.

Fixpoint insert_desc (x : Withdrawal) (l : list Withdrawal) : list Withdrawal :=
  match l with
  | [] => [x]
  | y :: rest => if created_desc x y then x :: l else y :: insert_desc x rest
  end.

Definition order_desc (l : list Withdrawal) : list Withdrawal :=
  fold_right insert_desc [] l.

(** [group: ['status']] with [COUNT(id)] and [SUM(amount)]. *)
Fixpoint add_to_group (r : Withdrawal) (groups : list StatRow) : list StatRow :=
  match groups with
  | [] => [{| stat_status := status r; stat_count := 1;
              stat_totalAmount := amount r |}]
  | g :: rest =>
      if (stat_status g =? status r)%string
      then {| stat_status := stat_status g; stat_count := S (stat_count g);
              stat_totalAmount := stat_totalAmount g + amount r |} :: rest
      else g :: add_to_group r rest
  end.

Definition group_by_status (rows : list Withdrawal) : list StatRow :=
  fold_left (fun groups r => add_to_group r groups) rows [].

(** [SUM(amount)] over all rows: null when there is none. *)
Definition sum_amount (rows : list Withdrawal) : option Z :=
  match rows with
  | [] => None
  | _ => Some (fold_right (fun r acc => amount r + acc) 0 rows)
  end.

(** Modelled from the spec: how a sum of the store, whose client is not at
    hand, reaches the handler: as the Number nearest to it. *)
Definition read_sum (sum : Z) : JsNum := to_Number sum.

Definition read_stat (g : StatRow) : Stat :=
  {| st_status := stat_status g; st_count := stat_count g;
     st_totalAmount := read_sum (stat_totalAmount g) |}.

(** [v || 0]: null, NaN and the zeros give 0. *)
Definition or_zero (v : option JsNum) : JsNum :=
  match v with
  | None | Some NaN => Finite 0 0
  | Some (Finite mant expo) => if mant =? 0 then Finite 0 0 else Finite mant expo
  | Some (Infinity negative) => Infinity negative
  end.

(** [UPDATE Users SET walletBalance = walletBalance + by_amount WHERE id] *)
Definition increment_balance (id : string) (by_amount : Z) (db : Database)
  : Database :=
  {| Withdrawals := Withdrawals db;
     Users := map (fun u =>
                     if (user_id u =? id)%string
                     then {| user_id := user_id u; user_email := user_email u;
                             user_username := user_username u;
                             walletBalance := walletBalance u + by_amount |}
                     else u) (Users db) |}.

(** The object [updateData]: [admin_notes] and [completed_at] are keys that
    may be absent. *)
Record UpdateData : Type := {
  ud_status : string;
  ud_processed_at : Z;
  ud_processed_by : string;
  ud_admin_notes : option string;
  ud_completed_at : option Z
}.

Definition or_else {A} (new old : option A) : option A :=
  match new with
  | Some v => Some v
  | None => old
  end.

(** The columns [updateData] names are set, the others kept. *)
Definition apply_update (ud : UpdateData) (r : Withdrawal) : Withdrawal :=
  {| w_id := w_id r;
     transaction_id := transaction_id r;
     amount := amount r;
     withdrawalMethod := withdrawalMethod r;
     walletAddress := walletAddress r;
     status := ud_status ud;
     createdAt := createdAt r;
     processed_at := Some (ud_processed_at ud);
     completed_at := or_else (ud_completed_at ud) (completed_at r);
     userId := userId r;
     admin_notes := or_else (ud_admin_notes ud) (admin_notes r);
     processed_by := Some (ud_processed_by ud) |}.

Definition update_row (id : string) (ud : UpdateData) (db : Database) : Database :=
  {| Withdrawals := map (fun r => if (w_id r =? id)%string
                                  then apply_update ud r else r)
                        (Withdrawals db);
     Users := Users db |}.

(** ToString of a value, as a template literal applies it. *)
Definition to_String (v : JsValue) : string :=
  match v with
  | JUndefined => "undefined"
  | JNull => "null"
  | JBool true => "true"
  | JBool false => "false"
  | JNumber n => (if n <? 0 then "-" else "") ++ decimal (Z.to_N (Z.abs n))
  | JString s => s
  end.

Definition validStatuses : list string :=
  ["confirmed"; "completed"; "failed"; "rejected"].

Definition status_of (withdrawal : WithdrawalInstance) : string :=
  status (values withdrawal).

(** [updateData.admin_notes = notes] *)
Definition with_admin_notes (notes : option string) (ud : UpdateData)
  : UpdateData :=
  {| ud_status := ud_status ud;
     ud_processed_at := ud_processed_at ud;
     ud_processed_by := ud_processed_by ud;
     ud_admin_notes := notes;
     ud_completed_at := ud_completed_at ud |}.

(** [updateData.completed_at = t] *)
Definition with_completed_at (t : Z) (ud : UpdateData) : UpdateData :=
  {| ud_status := ud_status ud;
     ud_processed_at := ud_processed_at ud;
     ud_processed_by := ud_processed_by ud;
     ud_admin_notes := ud_admin_notes ud;
     ud_completed_at := Some t |}.

Section Handlers.

(** [handleValidationErrors] of [../../utils/commonUtils] runs the validators
    of the route, which are declared elsewhere: it yields the response to
    send when the request is refused. *)
Variable handleValidationErrors : Request -> option Response.

(** The store may refuse any call with an error of its choice: [faults n op]
    is what it does to the call [op] when [n] calls were made before. *)
Variable faults : nat -> DbOp -> option JsError.

(** The clock: what the [k]-th [new Date()] of a request reads. *)
Variable now : nat -> Z.

(** A call on the store: noted, then refused, without effect, or run. *)
Definition db_call {A} (op : DbOp) (run : World -> A * World) : M World A :=
  fun w =>
    let w1 := traced op w in
    match faults (List.length (trace w)) op with
    | Some e => (Thrown e, w1)
    | None => let (a, w2) := run w1 in (Returned a, w2)
    end.

(** [new Date()] *)
Definition new_Date : M World Z :=
  fun w => (Returned (now (ticks w)),
            {| committed := committed w; transaction := transaction w;
               trace := trace w; console := console w;
               ticks := S (ticks w) |}).

(** [sequelize.transaction()] *)
Definition sequelize_transaction : M World unit :=
  db_call OpTransaction
    (fun w => (tt, with_transaction (Some (committed w)) w)).

(** [transaction.commit()]: the tables of the transaction become the
    committed ones, all at once. *)
Definition transaction_commit : M World unit :=
  db_call OpCommit
    (fun w => (tt, match transaction w with
                   | Some d => with_transaction None (with_committed d w)
                   | None => w
                   end)).

(** [transaction.rollback()]: the tables of the transaction are dropped. *)
Definition transaction_rollback : M World unit :=
  db_call OpRollback (fun w => (tt, with_transaction None w)).

(** [Withdrawal.findByPk(id, { include: user, transaction })] *)
Definition Withdrawal_findByPk (id : string) : M World (option WithdrawalInstance) :=
  db_call (OpFindByPk id)
    (fun w => (option_map (load_instance (visible w))
                          (find_withdrawal id (visible w)), w)).

(** [User.update({ walletBalance: literal }, { where: { id }, transaction })] *)
Definition User_update_walletBalance (id : string) (by_amount : Z) : M World unit :=
  db_call (OpUserIncrement id by_amount)
    (fun w => (tt, written (increment_balance id by_amount) w)).

(** [withdrawal.update(updateData, { transaction })]: the row of the
    instance and the instance itself take the new values. *)
Definition withdrawal_update (withdrawal : WithdrawalInstance) (ud : UpdateData)
  : M World WithdrawalInstance :=
  db_call (OpWithdrawalUpdate (w_id (values withdrawal)))
    (fun w => ({| values := apply_update ud (values withdrawal);
                  user := user withdrawal |},
               written (update_row (w_id (values withdrawal)) ud) w)).

(** [Withdrawal.findAll({ attributes, where, include, order })] *)
Definition Withdrawal_findAll (where_status where_userId : option string)
  : M World (list ListedWithdrawal) :=
  db_call (OpFindAll where_status where_userId)
    (fun w => (map (listed (visible w))
                   (order_desc (filter (matches where_status where_userId)
                                       (Withdrawals (visible w)))), w)).

(** [Withdrawal.findAll({ attributes: status, COUNT, SUM, group })] *)
Definition Withdrawal_findAll_by_status : M World (list Stat) :=
  db_call OpFindAllByStatus
    (fun w => (map read_stat (group_by_status (Withdrawals (visible w))), w)).

(** [Withdrawal.count()] *)
Definition Withdrawal_count : M World nat :=
  db_call OpCount (fun w => (List.length (Withdrawals (visible w)), w)).

(** [Withdrawal.sum('amount')] *)
Definition Withdrawal_sum : M World (option JsNum) :=
  db_call OpSum
    (fun w => (option_map read_sum (sum_amount (Withdrawals (visible w))), w)).

(** [req.user.id] *)
Definition req_user_id (req : Request) : M World string :=
  match req_user req with
  | Some u => ret (auth_id u)
  | None => throw (TypeError "Cannot read properties of undefined (reading 'id')")
  end.

(** [withdrawal.user.email] *)
Definition withdrawal_user_email (withdrawal : WithdrawalInstance)
  : M World string :=
  match user withdrawal with
  | Some u => ret (inc_email u)
  | None => throw (TypeError "Cannot read properties of null (reading 'email')")
  end.

Definition getAllWithdrawals (req : Request) : M World Response :=
  try_catch
    (match handleValidationErrors req with
     | Some validationError => ret validationError
     | None =>
         let status := query_status req in
         let userId := query_userId req in
         let where_status := if truthy_str status then status else None in
         let where_userId := if truthy_str userId then userId else None in
         withdrawals <- Withdrawal_findAll where_status where_userId ;;
         ret (json 200 true
                (match withdrawals with
                 | [] => "No withdrawals found"
                 | _ => "Withdrawals retrieved successfully"
                 end)
                (WithdrawalList withdrawals (List.length withdrawals)))
     end)
    (fun error =>
       console_error "Get all withdrawals error:" error ;;
       ret (sendErrorResponse 500 "Failed to retrieve withdrawals" error)).

Definition updateWithdrawalStatus (req : Request) : M World Response :=
  sequelize_transaction ;;
  try_catch
    (match handleValidationErrors req with
     | Some validationError =>
         transaction_rollback ;;
         ret validationError
     | None =>
         let id := params_id req in
         let status := body_status req in
         let adminNotes := body_adminNotes req in
         if negb (truthy status) then
           transaction_rollback ;;
           ret (json 400 false "Status is required" NoData)
         else if negb (includes validStatuses status) then
           transaction_rollback ;;
           ret (json 400 false
                  ("Invalid status. Must be one of: " ++ join ", " validStatuses)
                  NoData)
         else
           found <- Withdrawal_findByPk id ;;
           match found with
           | None =>
               transaction_rollback ;;
               ret (json 404 false "Withdrawal not found" NoData)
           | Some withdrawal =>
               let current := status_of withdrawal in
               if negb (current =? "pending")%string
                  && negb (current =? "confirmed")%string then
                 transaction_rollback ;;
                 ret (json 400 false
                        ("Withdrawal cannot be updated from " ++ current
                         ++ " status") NoData)
               else
                 processed_at <- new_Date ;;
                 processed_by <- req_user_id req ;;
                 let updateData :=
                   {| ud_status := to_String status;
                      ud_processed_at := processed_at;
                      ud_processed_by := processed_by;
                      ud_admin_notes := None;
                      ud_completed_at := None |} in
                 let updateData :=
                   if truthy_str adminNotes
                   then with_admin_notes adminNotes updateData
                   else updateData in
                 updateData <-
                   (if strict_eq status "completed" then
                      completed_at <- new_Date ;;
                      ret (with_completed_at completed_at updateData)
                    else ret updateData) ;;
                 (if strict_eq status "failed" || strict_eq status "rejected" then
                    User_update_walletBalance (userId (values withdrawal))
                                              (amount (values withdrawal))
                  else ret tt) ;;
                 withdrawal <- withdrawal_update withdrawal updateData ;;
                 transaction_commit ;;
                 try_catch
                   (email <- withdrawal_user_email withdrawal ;;
                    console_log ("Withdrawal " ++ id ++ " status updated to "
                                 ++ to_String status ++ " for user " ++ email))
                   (fun emailError =>
                      console_error "Failed to send notification:" emailError) ;;
                 ret (json 200 true
                        ("Withdrawal " ++ to_String status ++ " successfully")
                        (WithdrawalData withdrawal))
           end
     end)
    (fun error =>
       transaction_rollback ;;
       console_error "Update withdrawal status error:" error ;;
       ret (sendErrorResponse 500 "Failed to update withdrawal status" error)).

Definition getWithdrawalStats (req : Request) : M World Response :=
  try_catch
    (match handleValidationErrors req with
     | Some validationError => ret validationError
     | None =>
         stats <- Withdrawal_findAll_by_status ;;
         totalWithdrawals <- Withdrawal_count ;;
         totalAmount <- Withdrawal_sum ;;
         ret (json 200 true "Withdrawal statistics retrieved successfully"
                (StatsData stats totalWithdrawals (or_zero totalAmount)))
     end)
    (fun error =>
       console_error "Get withdrawal stats error:" error ;;
       ret (sendErrorResponse 500 "Failed to retrieve withdrawal statistics"
              error)).

End Handlers.

End AdminWithdrawalController.

(* ================================================================== *)
(** * Text: occurrences of a pattern, digits, markup *)
(* ================================================================== *)

Module StringFacts.
Import Js.

(** Does [c] occur in [s]? *)
Fixpoint has_char (c : ascii) (s : string) : bool :=
  match s with
  | EmptyString => false
  | String d rest => Ascii.eqb c d || has_char c rest
  end.

Definition is_digit (c : ascii) : bool :=
  ((48 <=? nat_of_ascii c) && (nat_of_ascii c <=? 57))%nat.

Fixpoint all_digits (s : string) : bool :=
  match s with
  | EmptyString => true
  | String c rest => is_digit c && all_digits rest
  end.

(** The text before the first [c], and the text after it. *)
Fixpoint before (c : ascii) (s : string) : string :=
  match s with
  | EmptyString => EmptyString
  | String d rest => if Ascii.eqb c d then EmptyString else String d (before c rest)
  end.

Fixpoint after (c : ascii) (s : string) : string :=
  match s with
  | EmptyString => EmptyString
  | String d rest => if Ascii.eqb c d then rest else after c rest
  end.

(** The text after the last [c] (all of it when there is none), and the text
    before that [c]. *)
Fixpoint trail (c : ascii) (s : string) : string :=
  match s with
  | EmptyString => EmptyString
  | String d rest => if has_char c rest then trail c rest
                     else if Ascii.eqb c d then rest else s
  end.

Fixpoint upto_last (c : ascii) (s : string) : string :=
  match s with
  | EmptyString => EmptyString
  | String d rest => if has_char c rest then String d (upto_last c rest)
                     else EmptyString
  end.

(** A piece of markup seen as text, tags, text: what comes before its first
    ["<"], what lies between that and its last [">"], and what follows. *)
Definition lead (s : string) : string := before "<" s.
Definition inner (s : string) : string := upto_last ">" (after "<" s).
Definition tail_text (s : string) : string := trail ">" (after "<" s).

Definition tagged (s : string) : Prop :=
  s = lead s ++ String "<" (inner s ++ String ">" (tail_text s)).

Lemma append_nil_r s : s ++ "" = s.
Proof. induction s; simpl; congruence. Qed.

Lemma append_assoc (a b c : string) : (a ++ b) ++ c = a ++ (b ++ c).
Proof. induction a; simpl; congruence. Qed.

Lemma has_char_app c a b : has_char c (a ++ b) = has_char c a || has_char c b.
Proof.
  induction a as [|d a IH]; simpl; [reflexivity|].
  rewrite IH. now rewrite orb_assoc.
Qed.

Lemma length_app a b : String.length (a ++ b) = (String.length a + String.length b)%nat.
Proof. induction a; simpl; congruence. Qed.

Lemma all_digits_app a b : all_digits (a ++ b) = all_digits a && all_digits b.
Proof.
  induction a as [|d a IH]; simpl; [reflexivity|].
  rewrite IH. now rewrite andb_assoc.
Qed.

(** *** Occurrences and separators *)

Lemma prefix_past pat c u b :
  has_char c pat = false ->
  prefix pat (u ++ String c b) = prefix pat u.
Proof.
  revert u. induction pat as [|p pat IH]; intros u Hc.
  - destruct u; reflexivity.
  - simpl in Hc. apply orb_false_iff in Hc. destruct Hc as [Hp Hc].
    destruct u as [|x u]; simpl.
    + destruct (ascii_dec p c) as [->|]; [|reflexivity].
      now rewrite Ascii.eqb_refl in Hp.
    + destruct (ascii_dec p x); [now apply IH | reflexivity].
Qed.

Lemma occurrences_nil pat : pat <> "" -> occurrences pat "" = 0%nat.
Proof. destruct pat; [congruence | reflexivity]. Qed.

(** A character that the pattern does not hold cuts the search in two. *)
Lemma occurrences_cut pat c a b :
  has_char c pat = false -> pat <> "" ->
  occurrences pat (a ++ String c b)
  = (occurrences pat a + occurrences pat b)%nat.
Proof.
  intros Hc Hne. induction a as [|x a IH].
  - rewrite (occurrences_nil _ Hne).
    change ("" ++ String c b) with (String c b). cbn [occurrences].
    pose proof (prefix_past pat c "" b Hc) as E. cbn [append] in E.
    rewrite E. destruct pat; [congruence | reflexivity].
  - change (String x a ++ String c b) with (String x (a ++ String c b)).
    cbn [occurrences]. rewrite IH.
    change (String x (a ++ String c b)) with (String x a ++ String c b).
    rewrite (prefix_past _ _ _ _ Hc). lia.
Qed.

Lemma prefix_has_char pat s c :
  prefix pat s = true -> has_char c pat = true -> has_char c s = true.
Proof.
  revert s. induction pat as [|p pat IH]; intros s Hp Hc; [discriminate|].
  destruct s as [|x s]; [discriminate|]. simpl in *.
  destruct (ascii_dec p x) as [->|]; [|discriminate].
  apply orb_true_iff in Hc. apply orb_true_iff.
  destruct Hc as [Hc|Hc]; [now left | right; now apply IH].
Qed.

(** A text that lacks a character of the pattern holds no occurrence. *)
Lemma occurrences_absent pat s c :
  has_char c pat = true -> has_char c s = false -> occurrences pat s = 0%nat.
Proof.
  intros Hc. induction s as [|x s IH]; intros Hs.
  - destruct pat; [discriminate | reflexivity].
  - cbn [occurrences]. simpl in Hs. apply orb_false_iff in Hs.
    destruct Hs as [Hx Hs]. rewrite (IH Hs).
    destruct (prefix pat (String x s)) eqn:Hp; [|reflexivity].
    pose proof (prefix_has_char _ _ _ Hp Hc) as H. simpl in H.
    rewrite Hx, Hs in H. discriminate.
Qed.

(** Text, a value, then a tagged piece: the search splits at the tags. *)
Lemma occurrences_step pat x f l i t y :
  has_char "<" pat = false -> has_char ">" pat = false -> pat <> "" ->
  occurrences pat (x ++ f ++ (l ++ String "<" (i ++ String ">" t)) ++ y)
  = (occurrences pat (x ++ f ++ l) + occurrences pat i
     + occurrences pat (t ++ y))%nat.
Proof.
  intros Hlt Hgt Hne.
  replace (x ++ f ++ (l ++ String "<" (i ++ String ">" t)) ++ y)
    with ((x ++ f ++ l) ++ String "<" (i ++ String ">" (t ++ y))).
  - rewrite (occurrences_cut _ _ _ _ Hlt Hne).
    rewrite (occurrences_cut _ _ _ _ Hgt Hne). lia.
  - rewrite !append_assoc. simpl. rewrite !append_assoc. reflexivity.
Qed.

(** *** Decimal digits *)

Lemma string_of_uint_digits d : all_digits (NilEmpty.string_of_uint d) = true.
Proof. induction d; simpl; auto. Qed.

Lemma decimal_digits n : all_digits (decimal n) = true.
Proof.
  unfold decimal, NilZero.string_of_uint.
  destruct (N.to_uint n); try reflexivity; apply string_of_uint_digits.
Qed.

Lemma digits_lack c s :
  is_digit c = false -> all_digits s = true -> has_char c s = false.
Proof.
  intros Hc. induction s as [|d s IH]; simpl; [reflexivity|].
  intros H. apply andb_true_iff in H. destruct H as [Hd Hs].
  rewrite (IH Hs), orb_false_r.
  destruct (Ascii.eqb_spec c d) as [->|]; [congruence | reflexivity].
Qed.

Lemma zeros_digits k : all_digits (zeros k) = true.
Proof. induction k; simpl; auto. Qed.

Lemma zeros_length k : String.length (zeros k) = k.
Proof. induction k; simpl; auto. Qed.

Lemma pad_zeros_digits k s : all_digits s = true -> all_digits (pad_zeros k s) = true.
Proof.
  intros H. unfold pad_zeros. now rewrite all_digits_app, zeros_digits, H.
Qed.

Lemma pad_zeros_length k s : (k <= String.length (pad_zeros k s))%nat.
Proof. unfold pad_zeros. rewrite length_app, zeros_length. lia. Qed.

Lemma substring_length s : forall a b,
  (a + b <= String.length s)%nat -> String.length (substring a b s) = b.
Proof.
  induction s as [|c s IH]; intros a b H; simpl in H.
  - assert (a = 0 /\ b = 0)%nat as [-> ->] by lia. reflexivity.
  - destruct a as [|a]; destruct b as [|b]; simpl; try reflexivity;
      rewrite IH; solve [reflexivity | lia].
Qed.

Lemma substring_digits s : forall a b,
  all_digits s = true -> all_digits (substring a b s) = true.
Proof.
  induction s as [|c s IH]; intros a b H.
  - destruct a, b; reflexivity.
  - simpl in H. apply andb_true_iff in H. destruct H as [Hc Hs].
    destruct a as [|a]; destruct b as [|b]; simpl; try reflexivity;
      rewrite ?Hc, IH; auto.
Qed.

(** *** Digits read as a number *)

(** The number that a text of decimal digits writes. *)
Definition number_of (s : string) : option N :=
  option_map N.of_uint (NilZero.uint_of_string s).

Lemma substring_split s : forall a b,
  (a + b = String.length s)%nat ->
  substring 0 a s ++ substring a b s = s.
Proof.
  induction s as [|c s IH]; intros a b H; simpl in H.
  - assert (a = 0 /\ b = 0)%nat as [-> ->] by lia. reflexivity.
  - destruct a as [|a].
    + destruct b as [|b]; [discriminate|]. simpl. f_equal.
      specialize (IH 0%nat b). simpl in IH.
      assert (E : substring 0 0 s = "") by (destruct s; reflexivity).
      rewrite E in IH. simpl in IH. apply IH. lia.
    + simpl. f_equal. apply IH. lia.
Qed.

Lemma number_of_decimal n : number_of (decimal n) = Some n.
Proof.
  unfold number_of, decimal. rewrite NilZero.usu.
  - simpl. now rewrite DecimalN.Unsigned.of_to.
  - destruct n as [|p]; [discriminate|].
    apply DecimalPos.Unsigned.to_uint_nonnil.
Qed.

Lemma number_of_zero s n :
  s <> "" -> number_of s = Some n -> number_of (String "0" s) = Some n.
Proof.
  unfold number_of, NilZero.uint_of_string. intros Hs H.
  destruct s as [|c s]; [congruence|].
  cbn [NilEmpty.uint_of_string] in *.
  change (uint_of_char "0") with (fun d => option_map Decimal.D0 d). cbn beta.
  destruct (uint_of_char c (NilEmpty.uint_of_string s)) as [d|];
    [|discriminate]. exact H.
Qed.

Lemma number_of_zeros k s n :
  s <> "" -> number_of s = Some n -> number_of (zeros k ++ s) = Some n.
Proof.
  intros Hs H. induction k as [|k IH]; [exact H|].
  simpl. apply number_of_zero; [|exact IH].
  destruct k; simpl; [exact Hs | discriminate].
Qed.

Lemma decimal_not_empty n : decimal n <> "".
Proof.
  intros E. pose proof (number_of_decimal n) as H. rewrite E in H.
  discriminate.
Qed.

End StringFacts.

(* ================================================================== *)
(** * Properties of the ROI accrual e-mail *)
(* ================================================================== *)

Module AccrualEmailFacts.
Import Js AccrualEmail StringFacts.

(** The literal the scenario of the spec looks for. *)
Definition literal : string := "12.50 USD".

(** The Number 12.5, that is 25 / 2. *)
Definition twelve_and_a_half : JsNum := Finite 25 (-1).

(** A runtime and an accrual for the scenario of the spec. *)
Definition sample_runtime : Runtime :=
  {| EMAIL_USER := Some "noreply@gratoms.example";
     number_toString := (fun _ => "1e+21");
     toLocaleDateString := (fun _ => "11/2/2026");
     getFullYear := 2026%N;
     sendMail := (fun _ => None) |}.

Definition sample_accrual : Args :=
  {| email := "ada@example.org"; planName := "Gold";
     roiAmount := twelve_and_a_half; transactionId := "TX-9"; date := 0;
     investmentId := "INV-3" |}.

(** An accrual whose amount is not a number, one whose plan name holds the
    literal, and one whose amount arrives as the text of a decimal column. *)
Definition nan_accrual : Args :=
  {| email := "ada@example.org"; planName := "Gold";
     roiAmount := NaN; transactionId := "TX-9"; date := 0;
     investmentId := "INV-3" |}.

Definition literal_accrual : Args :=
  {| email := "ada@example.org"; planName := "12.50 USD a day";
     roiAmount := twelve_and_a_half; transactionId := "TX-9"; date := 0;
     investmentId := "INV-3" |}.

Definition text_accrual : Passed :=
  {| email := "ada@example.org"; planName := "Gold";
     roiAmount := AString "12.50"; transactionId := "TX-9"; date := 0;
     investmentId := "INV-3" |}.

Definition parts : list string :=
  [html_part0; html_part1; html_part2; html_part3; html_part4; html_part5;
   html_part6; html_part7; html_part8].

Lemma parts_tagged : Forall tagged parts.
Proof. repeat constructor; vm_compute; reflexivity. Qed.

Lemma parts_inner : Forall (fun p => occurrences literal (inner p) = 0%nat) parts.
Proof. repeat constructor; vm_compute; reflexivity. Qed.

Lemma literal_clean :
  has_char "<" literal = false /\ has_char ">" literal = false /\ literal <> "".
Proof. repeat split; discriminate. Qed.

Lemma occurrences_tagged x f p y :
  tagged p ->
  occurrences literal (x ++ f ++ p ++ y)
  = (occurrences literal (x ++ f ++ lead p) + occurrences literal (inner p)
     + occurrences literal (tail_text p ++ y))%nat.
Proof.
  intros Hp. destruct literal_clean as (Hlt & Hgt & Hne).
  unfold tagged in Hp.
  set (l := lead p) in *. set (i := inner p) in *. set (t := tail_text p) in *.
  clearbody l i t. subst p. now apply occurrences_step.
Qed.

(** Where the literal can occur in the rendered page: in the two amounts
    with their unit, and inside the values the caller supplies. *)
Lemma occurrences_render_html rt a :
  let amt := toFixed (number_toString rt) (roiAmount a) 2 in
  occurrences literal (render_html rt a)
  = (2 * occurrences literal (amt ++ " USD")
     + 2 * occurrences literal (planName a)
     + occurrences literal (transactionId a)
     + occurrences literal (investmentId a)
     + occurrences literal (toLocaleDateString rt (date a)))%nat.
Proof.
  intros amt. unfold render_html. fold amt.
  pose proof parts_tagged as T. pose proof parts_inner as I.
  unfold parts in T, I.
  repeat match goal with
         | H : Forall _ (_ :: _) |- _ => inversion H; subst; clear H
         end.
  change (html_part0 ++ ?r) with ("" ++ "" ++ html_part0 ++ r).
  rewrite <- (append_nil_r html_part8).
  repeat (rewrite occurrences_tagged by assumption).
  rewrite H1, H3, H2, H4, H5, H6, H7, H8, H9.
  replace (tail_text html_part0) with "" by (vm_compute; reflexivity).
  replace (tail_text html_part1) with "" by (vm_compute; reflexivity).
  replace (tail_text html_part2) with "" by (vm_compute; reflexivity).
  replace (tail_text html_part3) with "" by (vm_compute; reflexivity).
  replace (tail_text html_part4) with "" by (vm_compute; reflexivity).
  replace (tail_text html_part5) with "" by (vm_compute; reflexivity).
  replace (tail_text html_part6) with "" by (vm_compute; reflexivity).
  replace (lead html_part1) with " USD" by (vm_compute; reflexivity).
  replace (lead html_part2) with "" by (vm_compute; reflexivity).
  replace (lead html_part3) with "" by (vm_compute; reflexivity).
  replace (lead html_part4) with "" by (vm_compute; reflexivity).
  replace (lead html_part5) with "" by (vm_compute; reflexivity).
  replace (lead html_part6) with " USD" by (vm_compute; reflexivity).
  replace (lead html_part7) with "" by (vm_compute; reflexivity).
  replace (occurrences literal ("" ++ "" ++ lead html_part0)) with 0%nat
    by (vm_compute; reflexivity).
  replace (occurrences literal (tail_text html_part8 ++ "")) with 0%nat
    by (vm_compute; reflexivity).
  rewrite (occurrences_absent literal
             (tail_text html_part7 ++ decimal (getFullYear rt) ++ lead html_part8)
             "U").
  - cbn [append]. rewrite !append_nil_r. lia.
  - reflexivity.
  - rewrite !has_char_app.
    rewrite (digits_lack "U" (decimal (getFullYear rt)) eq_refl (decimal_digits _)).
    vm_compute. reflexivity.
Qed.

Lemma twelve_and_a_half_fixed nts : toFixed nts twelve_and_a_half 2 = "12.50".
Proof. reflexivity. Qed.

(** Below 10^21 a finite amount is printed as a sign, digits, a point and
    two digits. *)
Lemma toFixed_two_places nts mant expo :
  at_least (Z.abs mant) expo (10 ^ 21) = false ->
  exists int frac,
    toFixed nts (Finite mant expo) 2
    = (if mant <? 0 then "-" else "") ++ int ++ "." ++ frac
    /\ String.length frac = 2%nat /\ all_digits frac = true
    /\ (1 <= String.length int)%nat /\ all_digits int = true.
Proof.
  intros Hsmall. unfold toFixed. rewrite Hsmall.
  set (m := pad_zeros (2 + 1) (decimal (Z.to_N (scaled_round (Z.abs mant) expo 2)))).
  assert (Hlen : (3 <= String.length m)%nat) by apply pad_zeros_length.
  assert (Hdig : all_digits m = true) by apply pad_zeros_digits, decimal_digits.
  exists (substring 0 (String.length m - 2) m),
         (substring (String.length m - 2) 2 m).
  split; [reflexivity|].
  split; [apply substring_length; lia|].
  split; [now apply substring_digits|].
  split; [rewrite substring_length; lia | now apply substring_digits].
Qed.

(** The digits are those of the nearest number of cents, a half going away
    from zero: with the amount [whole / scale] in magnitude, a hundred times
    it differs from the cents printed by a half at most. *)
Lemma toFixed_cents nts mant expo :
  at_least (Z.abs mant) expo (10 ^ 21) = false ->
  exists int frac cents,
    toFixed nts (Finite mant expo) 2
    = (if mant <? 0 then "-" else "") ++ int ++ "." ++ frac
    /\ String.length frac = 2%nat /\ all_digits frac = true
    /\ (1 <= String.length int)%nat /\ all_digits int = true
    /\ number_of (int ++ frac) = Some cents
    /\ let scale := 2 ^ Z.max 0 (- expo) in
       let whole := Z.abs mant * 2 ^ Z.max 0 expo in
       - scale <= 2 * (100 * whole - Z.of_N cents * scale) < scale.
Proof.
  intros Hsmall. unfold toFixed. rewrite Hsmall. cbv zeta.
  set (n := scaled_round (Z.abs mant) expo 2).
  set (m := pad_zeros (2 + 1) (decimal (Z.to_N n))).
  assert (Hlen : (3 <= String.length m)%nat) by apply pad_zeros_length.
  assert (Hdig : all_digits m = true) by apply pad_zeros_digits, decimal_digits.
  assert (Hpow : forall k, 0 <= k -> 0 < 2 ^ k)
    by (intros k Hk; apply Z.pow_pos_nonneg; lia).
  assert (Hn : 0 <= n).
  { unfold n, scaled_round. destruct (0 <=? expo) eqn:E.
    - apply Z.leb_le in E. pose proof (Hpow expo E).
      apply Z.mul_nonneg_nonneg; [|lia]. apply Z.mul_nonneg_nonneg; lia.
    - apply Z.leb_gt in E. pose proof (Hpow (- expo) ltac:(lia)).
      apply Z.div_pos; lia. }
  exists (substring 0 (String.length m - 2) m),
         (substring (String.length m - 2) 2 m), (Z.to_N n).
  split; [reflexivity|].
  split; [apply substring_length; lia|].
  split; [now apply substring_digits|].
  split; [rewrite substring_length; lia|].
  split; [now apply substring_digits|].
  split.
  - rewrite substring_split by lia. unfold m, pad_zeros.
    apply number_of_zeros; [apply decimal_not_empty | apply number_of_decimal].
  - rewrite Z2N.id by exact Hn. unfold n, scaled_round.
    destruct (0 <=? expo) eqn:E.
    + apply Z.leb_le in E.
      rewrite (Z.max_l 0 (- expo)) by lia. rewrite (Z.max_r 0 expo) by lia.
      change (10 ^ Z.of_nat 2) with 100. change (2 ^ 0) with 1. lia.
    + apply Z.leb_gt in E.
      rewrite (Z.max_r 0 (- expo)) by lia. rewrite (Z.max_l 0 expo) by lia.
      change (10 ^ Z.of_nat 2) with 100. change (2 ^ 0) with 1.
      pose proof (Hpow (- expo) ltac:(lia)) as Hd.
      set (d := 2 ^ (- expo)) in *. set (x := Z.abs mant).
      pose proof (Z.div_mod (2 * x * 100 + d) (2 * d) ltac:(lia)) as Hdm.
      pose proof (Z.mod_pos_bound (2 * x * 100 + d) (2 * d) ltac:(lia)) as Hm.
      nia.
Qed.

(** The text of [s] from position [n] on, and up to it. *)
Definition skip (n : nat) (s : string) : string :=
  substring n (String.length s - n) s.

Definition keep (n : nat) (s : string) : string := substring 0 n s.

(** Spaces and line ends only. *)
Fixpoint blank (s : string) : bool :=
  match s with
  | EmptyString => true
  | String c rest =>
      (Ascii.eqb c " " || Ascii.eqb c (Ascii.ascii_of_nat 10)) && blank rest
  end.

(** The tag that opens the summary amount, and the label of the detail row
    of the amount with the tags that open its value. *)
Definition summary_open : string := unq "<div class=`amount`>".
Definition row_label : string := "<span>ROI Amount:</span>".
Definition value_open : string := "<span><strong>".

(** The blank text between the label of the row and its value. *)
Definition row_gap : string :=
  skip 24 (keep 45 (skip (String.length html_part5 - 59) html_part5)).

Lemma summary_opens :
  html_part0
  = keep (String.length html_part0 - String.length summary_open) html_part0
    ++ summary_open.
Proof. vm_compute. reflexivity. Qed.

Lemma summary_unit : html_part1 = " USD</div>" ++ skip 10 html_part1.
Proof. vm_compute. reflexivity. Qed.

Lemma row_opens :
  html_part5
  = keep (String.length html_part5 - 59) html_part5
    ++ row_label ++ row_gap ++ value_open.
Proof. vm_compute. reflexivity. Qed.

Lemma row_gap_blank : blank row_gap = true.
Proof. vm_compute. reflexivity. Qed.

Lemma row_unit : html_part6 = " USD</strong></span>" ++ skip 20 html_part6.
Proof. vm_compute. reflexivity. Qed.

Section Sending.

Variable rt : Runtime.
Variable a : Args.
Variable p : Passed.

(** C8.  The amount is embedded twice, printed by [toFixed(2)] and followed
    by its unit: in the summary and in the ROI Amount row.  A finite amount
    below 10^21 in magnitude is printed there as digits with exactly two
    decimals, and these digits are the amount rounded to the nearest cent, a
    half going away from zero.  For the amount 12.5 that is 12.50, and the
    page holds the literal 12.50 USD at these two places and wherever the
    plan name (embedded twice), the two identifiers and the printed date
    hold it: exactly twice when they do not. *)
Theorem amount_rendered_with_two_decimals :
  let amt := toFixed (number_toString rt) (roiAmount a) 2 in
  (exists before_summary between after_row,
      render_html rt a
      = before_summary ++ summary_open ++ amt ++ " USD</div>" ++ between
        ++ row_label ++ row_gap ++ value_open ++ amt ++ " USD</strong></span>"
        ++ after_row)
  /\ (forall mant expo,
         roiAmount a = Finite mant expo ->
         at_least (Z.abs mant) expo (10 ^ 21) = false ->
         exists int frac cents,
           amt = (if mant <? 0 then "-" else "") ++ int ++ "." ++ frac
           /\ String.length frac = 2%nat /\ all_digits frac = true
           /\ (1 <= String.length int)%nat /\ all_digits int = true
           /\ number_of (int ++ frac) = Some cents
           /\ let scale := 2 ^ Z.max 0 (- expo) in
              let whole := Z.abs mant * 2 ^ Z.max 0 expo in
              - scale <= 2 * (100 * whole - Z.of_N cents * scale) < scale)
  /\ (roiAmount a = twelve_and_a_half ->
      amt = "12.50"
      /\ occurrences literal (render_html rt a)
         = (2 + (2 * occurrences literal (planName a)
                 + occurrences literal (transactionId a)
                 + occurrences literal (investmentId a)
                 + occurrences literal (toLocaleDateString rt (date a))))%nat
      /\ (occurrences literal (planName a) = 0%nat ->
          occurrences literal (transactionId a) = 0%nat ->
          occurrences literal (investmentId a) = 0%nat ->
          occurrences literal (toLocaleDateString rt (date a)) = 0%nat ->
          occurrences literal (render_html rt a) = 2%nat)).
Proof.
  intros amt. split; [|split].
  - unfold render_html. fold amt.
    rewrite summary_opens, summary_unit, row_opens, row_unit.
    set (l0 := keep _ html_part0). set (r1 := skip 10 html_part1).
    set (l5 := keep _ html_part5). set (r6 := skip 20 html_part6).
    exists l0,
      (r1 ++ planName a ++ html_part2 ++ transactionId a ++ html_part3
       ++ investmentId a ++ html_part4 ++ planName a ++ l5),
      (r6 ++ toLocaleDateString rt (date a) ++ html_part7
       ++ decimal (getFullYear rt) ++ html_part8).
    rewrite !append_assoc. reflexivity.
  - intros mant expo Hfin Hsmall. unfold amt. rewrite Hfin.
    now apply toFixed_cents.
  - intros Hamt. split; [unfold amt; rewrite Hamt; reflexivity|].
    rewrite occurrences_render_html, Hamt.
    change (occurrences literal
              (toFixed (number_toString rt) twelve_and_a_half 2 ++ " USD"))
      with 1%nat.
    split; [lia|]. intros Hp Ht Hi Hd. rewrite Hp, Ht, Hi, Hd. reflexivity.
Qed.

(** C9.  Building the mail or handing it to the transport can fail.  An
    amount without [toFixed] stops the function before the transport is
    called: the TypeError is written to the console and the caller gets the
    generic error.  Otherwise the mail is handed to the transport once; when
    the transport fails, the cause is written to the console and the caller
    gets the generic error; when it succeeds, the caller gets no error.  So
    the generic error is raised exactly when the amount has no [toFixed] or
    the transport fails: for a Number, exactly when the transport fails. *)
Theorem failure_surfaces_iff_build_or_send_fails (w0 : World) :
  let '(out, w) := roiAccrualEmail rt p w0 in
  match with_Number_amount p with
  | Thrown cause =>
      out = Thrown (Error "Failed to send ROI email")
      /\ outbox w = outbox w0
      /\ console w
         = (console w0 ++ [ConsoleError "ROI email sending error:" cause])%list
  | Returned args =>
      let mail := build_mailOptions rt args in
      outbox w = (outbox w0 ++ [mail])%list
      /\ match sendMail rt mail with
         | Some cause =>
             out = Thrown (Error "Failed to send ROI email")
             /\ console w
                = (console w0
                   ++ [ConsoleError "ROI email sending error:" cause])%list
         | None =>
             out = Returned tt
             /\ console w
                = (console w0
                   ++ [ConsoleLog ("ROI accrual email sent to " ++ email p
                                   ++ " for transaction "
                                   ++ transactionId p)])%list
         end
  end
  /\ (out = Thrown (Error "Failed to send ROI email")
      <-> match with_Number_amount p with
          | Thrown _ => True
          | Returned args => sendMail rt (build_mailOptions rt args) <> None
          end)
  /\ (forall x, roiAmount p = ANumber x ->
        (out = Thrown (Error "Failed to send ROI email")
         <-> sendMail rt (build_mailOptions rt (with_amount p x)) <> None)).
Proof.
  unfold roiAccrualEmail, transporter_sendMail, console_log, console_error,
    try_catch, bind, throw, settled, with_Number_amount.
  destruct (roiAmount p) as [x| | |t|b]; cbn.
  1: destruct (sendMail rt (build_mailOptions rt (with_amount p x)))
       as [cause|] eqn:Hsend; cbn.
  all: repeat split; try congruence; try discriminate.
  all: try (intros y Hy; inversion Hy; subst y; rewrite Hsend; congruence).
  all: try (intros y Hy H; inversion Hy; subst y; rewrite Hsend in H;
            congruence).
Qed.

End Sending.

(** The accrual of 12.5 on the Gold plan: 1250 cents. *)
Lemma amount_rendered_with_two_decimals_witness :
  toFixed (number_toString sample_runtime) (roiAmount sample_accrual) 2 = "12.50"
  /\ occurrences literal (render_html sample_runtime sample_accrual) = 2%nat
  /\ (exists int frac,
         toFixed (number_toString sample_runtime) (roiAmount sample_accrual) 2
         = int ++ "." ++ frac
         /\ String.length frac = 2%nat /\ all_digits frac = true
         /\ (1 <= String.length int)%nat /\ all_digits int = true
         /\ number_of (int ++ frac) = Some 1250%N).
Proof.
  destruct (amount_rendered_with_two_decimals sample_runtime sample_accrual)
    as (_ & Hplaces & Htwice).
  destruct (Htwice eq_refl) as (Hamt & _ & Hcount).
  split; [exact Hamt|].
  split; [exact (Hcount eq_refl eq_refl eq_refl eq_refl)|].
  destruct (Hplaces 25 (-1) eq_refl eq_refl)
    as (int & frac & cents & Htext & Hlen & Hfrac & Hone & Hint & Hnum
        & Hnear).
  exists int, frac. repeat (split; [assumption|]).
  cbv zeta in Hnear. change (2 ^ Z.max 0 (- -1)) with 2 in Hnear.
  change (2 ^ Z.max 0 (-1)) with 1 in Hnear.
  replace cents with 1250%N in Hnum by lia. exact Hnum.
Defined.

(** Where C8 fails as it is stated: an amount that is not a number is
    printed by name, with no decimals, and a plan name that holds the
    literal brings the occurrences of 12.50 USD to four. *)
Lemma two_decimals_counterexample :
  (toFixed (number_toString sample_runtime) (roiAmount nan_accrual) 2 = "NaN"
   /\ has_char "." (toFixed (number_toString sample_runtime)
                      (roiAmount nan_accrual) 2) = false
   /\ occurrences "NaN USD" (render_html sample_runtime nan_accrual) = 2%nat)
  /\ (roiAmount literal_accrual = twelve_and_a_half
      /\ occurrences literal (render_html sample_runtime literal_accrual)
         = 4%nat).
Proof. repeat split; vm_compute; reflexivity. Qed.

(** Where C9 fails as it is stated: the transport would take any mail, and
    the caller gets the generic error all the same, for an amount that
    arrives as text; nothing was handed to the transport. *)
Lemma generic_error_without_send_failure :
  (forall mail, sendMail sample_runtime mail = None)
  /\ roiAccrualEmail sample_runtime text_accrual
       {| console := []; outbox := [] |}
     = (Thrown (Error "Failed to send ROI email"),
        {| console :=
             [ConsoleError "ROI email sending error:"
                (TypeError "roiAmount.toFixed is not a function")];
           outbox := [] |}).
Proof. split; [intros mail|]; reflexivity. Qed.

End AccrualEmailFacts.


(* ================================================================== *)
(** * Properties of the admin withdrawal controller *)
(* ================================================================== *)

Module AdminWithdrawalFacts.
Import Js AdminWithdrawalController.

(** ** The scenarios of the spec: a small store and its requests *)

Definition withdrawal_1 : Withdrawal :=
  {| w_id := "1"; transaction_id := "TX-1"; amount := 50;
     withdrawalMethod := "crypto"; walletAddress := "0xA1";
     status := "pending"; createdAt := 1000; processed_at := None;
     completed_at := None; userId := "7"; admin_notes := None;
     processed_by := None |}.

Definition withdrawal_2 : Withdrawal :=
  {| w_id := "2"; transaction_id := "TX-2"; amount := 70;
     withdrawalMethod := "bank"; walletAddress := "0xB2";
     status := "completed"; createdAt := 2000; processed_at := Some 2400;
     completed_at := Some 2500; userId := "7"; admin_notes := None;
     processed_by := Some "admin-1" |}.

Definition withdrawal_3 : Withdrawal :=
  {| w_id := "3"; transaction_id := "TX-3"; amount := 20;
     withdrawalMethod := "crypto"; walletAddress := "0xC3";
     status := "pending"; createdAt := 3000; processed_at := None;
     completed_at := None; userId := "8"; admin_notes := None;
     processed_by := None |}.

Definition owner : User :=
  {| user_id := "7"; user_email := "ada@example.org"; user_username := "ada";
     walletBalance := 100 |}.

Definition other_owner : User :=
  {| user_id := "8"; user_email := "bob@example.org"; user_username := "bob";
     walletBalance := 0 |}.

Definition store : Database :=
  {| Withdrawals := [withdrawal_1; withdrawal_2; withdrawal_3];
     Users := [owner; other_owner] |}.





Definition acting_admin : AuthUser := {| auth_id := "admin-1" |}.

(** A status change of withdrawal [id] to [target] by [admin]. *)
Definition change (id : string) (target : JsValue) (admin : option AuthUser)
  : Request :=
  {| params_id := id; query_status := None; query_userId := None;
     body_status := target; body_adminNotes := None; req_user := admin |}.

(** A listing or statistics request with a status filter. *)
Definition query (filter : option string) : Request :=
  {| params_id := ""; query_status := filter; query_userId := None;
     body_status := JUndefined; body_adminNotes := None;
     req_user := Some acting_admin |}.

Definition validators_pass : Request -> option Response := fun _ => None.

Definition no_faults : nat -> DbOp -> option JsError := fun _ _ => None.

Definition clock : nat -> Z := fun k => 5000 + Z.of_nat k.

(** The response of a run that answered. *)
Definition answer (o : Outcome Response) : Response :=
  match o with
  | Returned r => r
  | Thrown e => sendErrorResponse 500 "" e
  end.

Section Update.

Variable handleValidationErrors : Request -> option Response.
Variable faults : nat -> DbOp -> option JsError.
Variable now : nat -> Z.

Local Abbreviation run_update req db :=
  (updateWithdrawalStatus handleValidationErrors faults now req (initial db)).

(** The [updateData] object the handler builds for target status [s]. *)
Definition built_update (req : Request) (s : string) (admin : AuthUser)
  : UpdateData :=
  {| ud_status := s;
     ud_processed_at := now 0;
     ud_processed_by := auth_id admin;
     ud_admin_notes :=
       if truthy_str (body_adminNotes req) then body_adminNotes req else None;
     ud_completed_at := if (s =? "completed")%string then Some (now 1%nat) else None |}.

(** The targets that give the amount back to the owner. *)
Definition refunds (s : string) : bool :=
  (s =? "failed")%string || (s =? "rejected")%string.

(** The two writes of a transition, as one change of the tables. *)
Definition transition_effect (wd : Withdrawal) (ud : UpdateData) (db : Database)
  : Database :=
  update_row (w_id wd) ud
    (if refunds (ud_status ud)
     then increment_balance (userId wd) (amount wd) db else db).

(** The statuses that cannot be left. *)
Definition terminal (st : string) : Prop :=
  In st ["completed"; "failed"; "rejected"].

(** The message of a refusal of a request on a withdrawal whose status is
    [current] and cannot be left. *)
Definition refusal_message (v : JsValue) (current : string) : string :=
  if negb (truthy v) then "Status is required"
  else if negb (includes validStatuses v)
       then "Invalid status. Must be one of: " ++ join ", " validStatuses
       else "Withdrawal cannot be updated from " ++ current ++ " status".

(** A request that gets as far as the writes: it passes validation, names a
    valid target, finds its withdrawal pending or confirmed, and carries an
    acting admin. *)
Definition Admissible (req : Request) (db : Database)
    (wd : Withdrawal) (admin : AuthUser) (s : string) : Prop :=
  handleValidationErrors req = None /\
  body_status req = JString s /\ In s validStatuses /\
  find_withdrawal (params_id req) db = Some wd /\
  (status wd = "pending" \/ status wd = "confirmed") /\
  req_user req = Some admin.

(** The answer to a transition that went through: the instance with its
    new values. *)
Definition success_response (req : Request) (db : Database)
    (wd : Withdrawal) (admin : AuthUser) (s : string) : Response :=
  json 200 true ("Withdrawal " ++ s ++ " successfully")
    (WithdrawalData
       {| values := apply_update (built_update req s admin) wd;
          user := option_map project_user (find_user (userId wd) db) |}).

(** Does the store answer [op] as its call number [n]? *)
Definition succeeds (n : nat) (op : DbOp) : bool :=
  match faults n op with
  | None => true
  | Some _ => false
  end.

(** The calls a transition of [wd] to [s] makes on the store before it
    answers, in their order: all of them go through. *)
Definition calls_succeed (wd : Withdrawal) (s : string) : bool :=
  succeeds 0 OpTransaction
  && succeeds 1 (OpFindByPk (w_id wd))
  && (if refunds s
      then succeeds 2 (OpUserIncrement (userId wd) (amount wd))
           && succeeds 3 (OpWithdrawalUpdate (w_id wd))
           && succeeds 4 OpCommit
      else succeeds 2 (OpWithdrawalUpdate (w_id wd))
           && succeeds 3 OpCommit).

Lemma includes_inv v :
  includes validStatuses v = true ->
  exists s, v = JString s /\ In s validStatuses.
Proof.
  destruct v; simpl; try discriminate.
  intros H. exists s. split; [reflexivity|].
  repeat (apply orb_prop in H; destruct H as [H|H]);
    try (apply String.eqb_eq in H; subst; simpl; tauto).
  discriminate.
Qed.

Lemma find_withdrawal_id id db wd :
  find_withdrawal id db = Some wd -> w_id wd = id.
Proof.
  unfold find_withdrawal. intros H. apply find_some in H.
  destruct H as [_ H]. now apply String.eqb_eq in H.
Qed.

Lemma valid_includes s : In s validStatuses -> includes validStatuses (JString s) = true.
Proof.
  simpl. intros [H|[H|[H|[H|[]]]]]; subst; reflexivity.
Qed.

Lemma valid_truthy s : In s validStatuses -> truthy (JString s) = true.
Proof.
  simpl. intros [H|[H|[H|[H|[]]]]]; subst; reflexivity.
Qed.

Lemma Admissible_fun req db wd admin s wd' admin' s' :
  Admissible req db wd admin s -> Admissible req db wd' admin' s' ->
  wd' = wd /\ admin' = admin /\ s' = s.
Proof.
  intros (_ & Hs & _ & Hf & _ & Ha) (_ & Hs' & _ & Hf' & _ & Ha').
  rewrite Hs in Hs'. rewrite Hf in Hf'. rewrite Ha in Ha'.
  inversion Hs'; inversion Hf'; inversion Ha'; auto.
Qed.

Ltac not_admissible :=
  let wd' := fresh "wd" in
  let Hv' := fresh in let Hs' := fresh in let Hin' := fresh in
  let Hf' := fresh in let Hn' := fresh in let Ha' := fresh in
  intros wd' ? ? (Hv' & Hs' & Hin' & Hf' & Hn' & Ha');
  try congruence;
  try (match goal with
       | H : truthy (body_status _) = false |- _ =>
           rewrite Hs' in H; rewrite (valid_truthy _ Hin') in H; discriminate
       | H : includes _ (body_status _) = false |- _ =>
           rewrite Hs' in H; rewrite (valid_includes _ Hin') in H; discriminate
       end);
  try (match goal with
       | H : find_withdrawal _ _ = Some _ |- _ =>
           rewrite H in Hf'; inversion Hf'; subst wd'
       end;
       match goal with
       | H : negb _ && negb _ = true |- _ =>
           destruct Hn' as [Hn'|Hn']; rewrite Hn' in H; discriminate
       end).

(** Case analysis on what the store does to the calls still in the goal. *)
Ltac store_answers :=
  repeat match goal with
         | |- context [faults ?n ?op] => destruct (faults n op) eqn:?; cbn
         end.

Ltac refused :=
  split;
  [ left; split; [reflexivity|];
    split; [intros r Hr; inversion Hr; subst; cbn; discriminate | not_admissible]
  | split; cbn; intros; (discriminate || (split; [reflexivity | assumption])) ].

Ltac rolled_back :=
  unfold transaction_rollback, db_call, console_error, ret; cbn;
  store_answers; refused.

Ltac rewrite_answers :=
  repeat match goal with
         | H : faults _ _ = _ |- _ => rewrite H; clear H
         end.

Lemma update_cases req db :
  let '(out, w) := run_update req db in
  ((committed w = db /\
    (forall r, out = Returned r -> handleValidationErrors req = None ->
               status_code r <> 200%nat) /\
    (forall wd admin s, Admissible req db wd admin s ->
                        calls_succeed wd s = false))
   \/
   (exists wd admin s,
       Admissible req db wd admin s /\
       calls_succeed wd s = true /\
       committed w = transition_effect wd (built_update req s admin) db /\
       out = Returned (success_response req db wd admin s)))
  /\
  (existsb is_write (trace w) = true ->
   exists wd admin s, Admissible req db wd admin s)
  /\
  (existsb is_row_access (trace w) = true ->
   handleValidationErrors req = None /\
   includes validStatuses (body_status req) = true).
Proof.
  unfold updateWithdrawalStatus, sequelize_transaction, bind, try_catch, db_call.
  cbn.
  destruct (faults 0%nat OpTransaction) eqn:Ftx; cbn.
  { split; [left; split; [reflexivity|]; split; [intros; discriminate|]
           | split; intros; discriminate].
    intros wd admin s _. unfold calls_succeed, succeeds. now rewrite Ftx. }
  destruct (handleValidationErrors req) eqn:Hv.
  { unfold transaction_rollback, db_call, console_error, ret. cbn.
    store_answers;
      (split; [left; split; [reflexivity|]; split; [intros; discriminate|]
              | split; intros; discriminate]);
      intros wd admin s (Hv' & _); congruence. }
  destruct (truthy (body_status req)) eqn:Ht; cbn; [|rolled_back].
  destruct (includes validStatuses (body_status req)) eqn:Hi; cbn;
    [|rolled_back].
  destruct (includes_inv _ Hi) as (s & Hs & Hin).
  unfold Withdrawal_findByPk, db_call. cbn.
  destruct (faults 1%nat (OpFindByPk (params_id req))) eqn:Ffind; cbn.
  { unfold transaction_rollback, db_call, console_error, ret; cbn.
    store_answers;
      (split; [left; split; [reflexivity|]; split;
                 [intros r Hr; inversion Hr; subst; cbn; discriminate|]
              | split; cbn; intros; (discriminate || (split; [reflexivity | assumption]))]);
      intros wd admin s' (_ & _ & _ & Hf & _);
      apply find_withdrawal_id in Hf;
      unfold calls_succeed, succeeds; rewrite Hf, Ftx, Ffind; reflexivity. }
  destruct (find_withdrawal (params_id req) db) as [wd|] eqn:Hfind; cbn;
    [|rolled_back].
  unfold status_of. cbn.
  destruct (negb (status wd =? "pending")%string
            && negb (status wd =? "confirmed")%string) eqn:Hst; cbn;
    [rolled_back|].
  assert (Hnonterminal : status wd = "pending" \/ status wd = "confirmed").
  { apply andb_false_iff in Hst.
    destruct Hst as [H|H]; apply negb_false_iff, String.eqb_eq in H; tauto. }
  unfold req_user_id.
  destruct (req_user req) as [admin|] eqn:Hadmin; cbn; [|rolled_back].
  assert (Hadm : Admissible req db wd admin s).
  { unfold Admissible. rewrite Hfind, Hadmin. repeat split; auto. }
  assert (Hid : w_id wd = params_id req) by (eapply find_withdrawal_id; eauto).
  rewrite <- Hid in Ffind.
  clear Hnonterminal Hst Ht.
  rewrite Hs. cbn [strict_eq to_String].
  unfold User_update_walletBalance, withdrawal_update, transaction_commit,
    transaction_rollback, withdrawal_user_email, db_call, ret.
  destruct (s =? "completed")%string eqn:Hc;
    destruct ((s =? "failed")%string || (s =? "rejected")%string) eqn:Hr; cbn;
    store_answers.
  all: try (destruct (find_user (userId wd) db) eqn:Hu; cbn).
  all: (split; [| split; intros _; eauto]).
  all: try (left; split; [reflexivity|]; split;
            [ intros r Hr'; first [discriminate | inversion Hr'; subst; cbn; discriminate]
            | intros wd' admin' s' Hadm';
              destruct (Admissible_fun _ _ _ _ _ _ _ _ Hadm Hadm') as (-> & -> & ->);
              unfold calls_succeed, succeeds, refunds;
              rewrite Hr; rewrite_answers; reflexivity ]).
  all: right; exists wd, admin, s; split; [exact Hadm|];
    split; [ unfold calls_succeed, succeeds, refunds;
             rewrite Hr; rewrite_answers; reflexivity |];
    unfold success_response, transition_effect, built_update, refunds;
    cbn [ud_status]; rewrite ?Hc, ?Hr, ?Hu;
    destruct (truthy_str (body_adminNotes req)); split; reflexivity.
Qed.

(** *** Lookups after the writes *)

Lemma find_map_preserved {A} (p : A -> bool) (f : A -> A) (l : list A) :
  (forall x, p (f x) = p x) ->
  find p (map f l) = option_map f (find p l).
Proof.
  intros Hp. induction l as [|x l IH]; simpl; [reflexivity|].
  rewrite Hp. destruct (p x); [reflexivity | exact IH].
Qed.

Lemma find_withdrawal_update_row id ud db wd :
  find_withdrawal id db = Some wd ->
  find_withdrawal id (update_row id ud db) = Some (apply_update ud wd).
Proof.
  unfold find_withdrawal, update_row. simpl. intros H.
  rewrite find_map_preserved.
  - rewrite H. simpl.
    apply find_some in H. destruct H as [_ H]. now rewrite H.
  - intros x. destruct (w_id x =? id)%string eqn:E; simpl; auto.
Qed.

Lemma find_withdrawal_increment id uid amt db :
  find_withdrawal id (increment_balance uid amt db) = find_withdrawal id db.
Proof. reflexivity. Qed.

Lemma find_user_update_row uid id ud db :
  find_user uid (update_row id ud db) = find_user uid db.
Proof. reflexivity. Qed.

Lemma find_user_increment uid amt db u :
  find_user uid db = Some u ->
  exists u', find_user uid (increment_balance uid amt db) = Some u' /\
             walletBalance u' = walletBalance u + amt.
Proof.
  unfold find_user, increment_balance. simpl. intros H.
  rewrite find_map_preserved.
  - rewrite H. simpl. apply find_some in H. destruct H as [_ H].
    rewrite H. eexists. split; reflexivity.
  - intros x. destruct (user_id x =? uid)%string eqn:E; simpl; auto.
Qed.

Lemma find_withdrawal_effect req db wd admin s :
  Admissible req db wd admin s ->
  find_withdrawal (params_id req)
    (transition_effect wd (built_update req s admin) db)
  = Some (apply_update (built_update req s admin) wd).
Proof.
  intros (_ & _ & _ & Hf & _). unfold transition_effect.
  rewrite (find_withdrawal_id _ _ _ Hf).
  apply find_withdrawal_update_row.
  destruct (refunds _); [rewrite find_withdrawal_increment|]; exact Hf.
Qed.

(** *** What the store never sees *)

Lemma terminal_not_open st :
  terminal st -> ~ (st = "pending" \/ st = "confirmed").
Proof.
  unfold terminal. simpl.
  intros [H|[H|[H|[]]]] [H'|H']; subst; discriminate.
Qed.

Lemma terminal_guard st :
  terminal st ->
  negb (st =? "pending")%string && negb (st =? "confirmed")%string = true.
Proof.
  unfold terminal. simpl. intros [H|[H|[H|[]]]]; subst; reflexivity.
Qed.

Lemma open_guard st :
  st = "pending" \/ st = "confirmed" ->
  negb (st =? "pending")%string && negb (st =? "confirmed")%string = false.
Proof. intros [H|H]; subst; reflexivity. Qed.

(** Whatever the validators answer and whichever calls the store refuses, a
    withdrawal in a terminal status is left as it is, and so is every
    balance: no write is even tried. *)
Lemma terminal_never_written req db wd :
  find_withdrawal (params_id req) db = Some wd ->
  terminal (status wd) ->
  committed (snd (run_update req db)) = db /\
  existsb is_write (trace (snd (run_update req db))) = false.
Proof.
  intros Hf Ht. pose proof (update_cases req db) as H.
  destruct (run_update req db) as [out w]. simpl.
  destruct H as (H1 & H2 & _).
  assert (Hno : forall wd' admin s, ~ Admissible req db wd' admin s).
  { intros wd' admin s (_ & _ & _ & Hf' & Hn & _).
    rewrite Hf in Hf'. inversion Hf'; subst.
    exact (terminal_not_open _ Ht Hn). }
  split.
  - destruct H1 as [(Hc & _)|(wd' & admin & s & Ha & _)]; [exact Hc|].
    destruct (Hno _ _ _ Ha).
  - destruct (existsb is_write (trace w)); [|reflexivity].
    destruct (H2 eq_refl) as (wd' & admin & s & Ha). destruct (Hno _ _ _ Ha).
Qed.

(** Without an acting admin nothing is committed and no write is tried,
    whatever else the request holds. *)
Lemma nothing_committed_without_admin req db :
  req_user req = None ->
  committed (snd (run_update req db)) = db /\
  existsb is_write (trace (snd (run_update req db))) = false.
Proof.
  intros Hu. pose proof (update_cases req db) as H.
  destruct (run_update req db) as [out w]. simpl.
  destruct H as (H1 & H2 & _).
  assert (Hno : forall wd' admin s, ~ Admissible req db wd' admin s).
  { intros wd' admin s (_ & _ & _ & _ & _ & Ha). congruence. }
  split.
  - destruct H1 as [(Hc & _)|(wd' & admin & s & Ha & _)]; [exact Hc|].
    destruct (Hno _ _ _ Ha).
  - destruct (existsb is_write (trace w)); [|reflexivity].
    destruct (H2 eq_refl) as (wd' & admin & s & Ha). destruct (Hno _ _ _ Ha).
Qed.

(** A request whose status is missing or not a valid target never reaches a
    row, whatever the validators answer and the store refuses. *)
Lemma invalid_status_never_reaches_rows req db :
  includes validStatuses (body_status req) = false ->
  committed (snd (run_update req db)) = db /\
  existsb is_row_access (trace (snd (run_update req db))) = false.
Proof.
  intros Hi. pose proof (update_cases req db) as H.
  destruct (run_update req db) as [out w]. simpl.
  destruct H as (H1 & _ & H3).
  split.
  - destruct H1 as [(Hc & _)|(wd' & admin & s & Ha & _)]; [exact Hc|].
    destruct Ha as (_ & Hs & Hin & _).
    rewrite Hs, (valid_includes _ Hin) in Hi. discriminate.
  - destruct (existsb is_row_access (trace w)); [|reflexivity].
    destruct (H3 eq_refl) as (_ & Hi'). congruence.
Qed.

Ltac run_handler :=
  unfold updateWithdrawalStatus, sequelize_transaction, transaction_rollback,
    Withdrawal_findByPk, req_user_id, console_error, bind, try_catch, db_call,
    ret, throw; cbn.

(** C1.  A withdrawal that is completed, failed or rejected cannot be moved.
    Whatever the request asks for, the validators answer and the store does,
    no write is tried and the committed tables, with the withdrawal and
    every balance, are as before.  When the request passes the validators
    and the store answers its calls, the handler rolls the transaction back
    and answers 400, for a valid target with the refusal of the
    transition. *)
Theorem terminal_transition_refused req db wd :
  find_withdrawal (params_id req) db = Some wd ->
  terminal (status wd) ->
  (committed (snd (run_update req db)) = db
   /\ existsb is_write (trace (snd (run_update req db))) = false)
  /\ (handleValidationErrors req = None ->
      faults 0%nat OpTransaction = None ->
      faults 1%nat (OpFindByPk (params_id req)) = None ->
      (forall n, faults n OpRollback = None) ->
      exists w,
        run_update req db
        = (Returned (json 400 false
                       (refusal_message (body_status req) (status wd)) NoData),
           w)
        /\ transaction w = None
        /\ last (trace w) OpCommit = OpRollback).
Proof.
  intros Hf Ht. split; [now apply terminal_never_written with (wd := wd)|].
  intros Hv Ftx Ffind Frb.
  unfold refusal_message. run_handler. rewrite Ftx, Hv. cbn.
  destruct (truthy (body_status req)); cbn.
  2:{ rewrite Frb. cbn. eexists. repeat split. }
  destruct (includes validStatuses (body_status req)); cbn.
  2:{ rewrite Frb. cbn. eexists. repeat split. }
  rewrite Ffind. cbn. rewrite Hf. cbn. unfold status_of. cbn.
  rewrite (terminal_guard _ Ht). cbn. rewrite Frb. cbn.
  eexists. repeat split.
Qed.

(** C4.  A request whose status is missing, or is not one of confirmed,
    completed, failed and rejected, reaches no row: whatever the validators
    answer and the store does, no row is read or written and the committed
    tables are as before.  When the store opens and rolls back the
    transaction (and the validators answer 400 if they refuse), the answer
    is a 400 and those two calls are all the store has seen. *)
Theorem invalid_status_refused req db :
  includes validStatuses (body_status req) = false ->
  (committed (snd (run_update req db)) = db
   /\ existsb is_row_access (trace (snd (run_update req db))) = false)
  /\ ((forall r, handleValidationErrors req = Some r -> status_code r = 400%nat) ->
      faults 0%nat OpTransaction = None ->
      faults 1%nat OpRollback = None ->
      exists r,
        run_update req db
        = (Returned r,
           {| committed := db; transaction := None;
              trace := [OpTransaction; OpRollback]; console := [];
              ticks := 0 |})
        /\ status_code r = 400%nat
        /\ (handleValidationErrors req = None ->
            r = json 400 false
                  (if truthy (body_status req)
                   then "Invalid status. Must be one of: confirmed, completed, failed, rejected"
                   else "Status is required")
                  NoData)).
Proof.
  intros Hi. split; [now apply invalid_status_never_reaches_rows|].
  intros Hv Ftx Frb.
  run_handler. rewrite Ftx. cbn.
  destruct (handleValidationErrors req) as [r|] eqn:Hr.
  - cbn. rewrite Frb. cbn. exists r.
    split; [reflexivity|]. split; [now apply Hv | discriminate].
  - rewrite Hi. destruct (truthy (body_status req)); cbn; rewrite Frb; cbn;
      eexists; (split; [reflexivity|]); split; reflexivity.
Qed.

(** C10.  Without an acting admin nothing is ever committed: whatever the
    request holds, the validators answer and the store does, no write is
    tried and the committed tables are as before.  A request that passes the
    validators, names a valid target and finds its withdrawal pending or
    confirmed throws a TypeError on reading [req.user.id]; with the store
    answering, the handler rolls the transaction back, logs the error and
    answers 500, the store having seen the opening, the lookup and the
    rollback. *)
Theorem missing_admin_rolls_back req db wd :
  req_user req = None ->
  find_withdrawal (params_id req) db = Some wd ->
  status wd = "pending" \/ status wd = "confirmed" ->
  (committed (snd (run_update req db)) = db
   /\ existsb is_write (trace (snd (run_update req db))) = false)
  /\ (handleValidationErrors req = None ->
      includes validStatuses (body_status req) = true ->
      faults 0%nat OpTransaction = None ->
      faults 1%nat (OpFindByPk (params_id req)) = None ->
      faults 2%nat OpRollback = None ->
      run_update req db
      = (Returned (json 500 false "Failed to update withdrawal status" NoData),
         {| committed := db; transaction := None;
            trace := [OpTransaction; OpFindByPk (params_id req); OpRollback];
            console :=
              [ConsoleError "Update withdrawal status error:"
                 (TypeError "Cannot read properties of undefined (reading 'id')")];
            ticks := 1 |})).
Proof.
  intros Hu Hf Hn. split; [now apply nothing_committed_without_admin|].
  intros Hv Hi Ftx Ffind Frb.
  destruct (includes_inv _ Hi) as (s & Hs & Hin).
  run_handler. rewrite Ftx, Hv. cbn.
  rewrite Hs, (valid_truthy _ Hin). cbn [negb].
  rewrite (valid_includes _ Hin). cbn.
  rewrite Ffind. cbn. rewrite Hf. cbn. unfold status_of. cbn.
  rewrite (open_guard _ Hn). cbn. rewrite Hu. cbn. rewrite Frb. cbn.
  reflexivity.
Qed.

Lemma succeeds_None n op : succeeds n op = true -> faults n op = None.
Proof. unfold succeeds. destruct (faults n op); [discriminate | reflexivity]. Qed.

(** The run of a refunding transition on which the store answers every
    call. *)
Lemma refund_run req db wd u admin s :
  Admissible req db wd admin s ->
  s = "failed" \/ s = "rejected" ->
  find_user (userId wd) db = Some u ->
  calls_succeed wd s = true ->
  run_update req db
  = (Returned (success_response req db wd admin s),
     {| committed := transition_effect wd (built_update req s admin) db;
        transaction := None;
        trace := [OpTransaction; OpFindByPk (params_id req);
                  OpUserIncrement (userId wd) (amount wd);
                  OpWithdrawalUpdate (w_id wd); OpCommit];
        console := [ConsoleLog ("Withdrawal " ++ params_id req
                                ++ " status updated to " ++ s ++ " for user "
                                ++ user_email u)];
        ticks := 1 |}).
Proof.
  intros (Hv & Hs & Hin & Hf & Hn & Ha) Ht Hu Hok.
  assert (Hrf : refunds s = true) by (destruct Ht; subst; reflexivity).
  unfold calls_succeed in Hok. rewrite Hrf in Hok.
  repeat match goal with
         | H : _ && _ = true |- _ => apply andb_true_iff in H; destruct H
         end.
  repeat match goal with
         | H : succeeds _ _ = true |- _ => apply succeeds_None in H
         end.
  unfold updateWithdrawalStatus, sequelize_transaction, transaction_rollback,
    transaction_commit, User_update_walletBalance, withdrawal_update,
    withdrawal_user_email, Withdrawal_findByPk, req_user_id, console_error,
    console_log, new_Date, bind, try_catch, db_call, ret, throw,
    success_response, transition_effect, built_update; cbn.
  rewrite Hrf.
  repeat match goal with
         | H : faults 0%nat _ = None |- _ => rewrite H; clear H
         end.
  rewrite Hv. cbn. rewrite Hs, (valid_truthy _ Hin). cbn [negb].
  rewrite (valid_includes _ Hin). cbn.
  rewrite <- (find_withdrawal_id _ _ _ Hf) at 1.
  repeat match goal with
         | H : faults 1%nat _ = None |- _ => rewrite H; clear H
         end.
  rewrite (find_withdrawal_id _ _ _ Hf).
  cbn. rewrite Hf. cbn. unfold status_of. cbn.
  rewrite (open_guard _ Hn). cbn. rewrite Ha. cbn.
  unfold refunds in Hrf.
  assert (Hc : (s =? "completed")%string = false)
    by (destruct Ht; subst; reflexivity).
  rewrite Hc, Hrf. cbn.
  repeat match goal with
         | H : faults _ _ = None |- _ => rewrite H; clear H; cbn
         end.
  rewrite Hu. cbn.
  rewrite ?(find_withdrawal_id _ _ _ Hf), ?Hc, ?Hrf, ?Hu. cbn.
  destruct (truthy_str (body_adminNotes req)); reflexivity.
Qed.

(** C2.  A transition of a pending or confirmed withdrawal to failed or
    rejected.  When the calls on the store go through, the refund and the
    status update are made, in this order, between the opening and the
    commit of one transaction; the answer is 200 and the committed tables
    hold the withdrawal in its new status and the owning user with the
    balance raised by exactly the amount.  When one of the calls is refused,
    the committed tables are as before and the answer is no 200.  There is
    no outcome with one of the two writes. *)
Theorem refund_commits_with_status req db wd u admin s :
  Admissible req db wd admin s ->
  s = "failed" \/ s = "rejected" ->
  find_user (userId wd) db = Some u ->
  exists out w,
    run_update req db = (out, w) /\
    if calls_succeed wd s
    then out = Returned (success_response req db wd admin s)
         /\ committed w = transition_effect wd (built_update req s admin) db
         /\ trace w = [OpTransaction; OpFindByPk (params_id req);
                       OpUserIncrement (userId wd) (amount wd);
                       OpWithdrawalUpdate (w_id wd); OpCommit]
         /\ (exists stored,
                find_withdrawal (params_id req) (committed w) = Some stored
                /\ status stored = s)
         /\ (exists u',
                find_user (userId wd) (committed w) = Some u'
                /\ walletBalance u' = walletBalance u + amount wd)
    else committed w = db
         /\ forall r, out = Returned r -> status_code r <> 200%nat.
Proof.
  intros Ha Hs Hu.
  destruct (calls_succeed wd s) eqn:Hok.
  - rewrite (refund_run _ _ _ _ _ _ Ha Hs Hu Hok).
    eexists. eexists. split; [reflexivity|]. cbn [committed trace].
    split; [reflexivity|]. split; [reflexivity|]. split; [reflexivity|]. split.
    + rewrite (find_withdrawal_effect _ _ _ _ _ Ha). eexists. split; reflexivity.
    + unfold transition_effect. rewrite find_user_update_row.
      assert (Hrf : refunds (ud_status (built_update req s admin)) = true)
        by (destruct Hs; subst; reflexivity).
      rewrite Hrf. apply find_user_increment. exact Hu.
  - pose proof (update_cases req db) as H.
    destruct (run_update req db) as [out w]. exists out, w.
    split; [reflexivity|].
    destruct H as ([(Hc & Hr & _)|(wd' & admin' & s' & Ha' & Hok' & _)] & _).
    + split; [exact Hc|]. intros r Hr'. apply (Hr r Hr'). apply Ha.
    + destruct (Admissible_fun _ _ _ _ _ _ _ _ Ha Ha') as (-> & -> & ->).
      congruence.
Qed.

(** C3.  After a transition that is answered with 200 the stored withdrawal
    has the requested status and [processed_at] and [processed_by] set, to
    the first clock reading and the acting admin; [completed_at] is the clock
    reading taken for it when the requested status is completed, and is the
    value it had before, not written, for any other status, so it stays
    null on a transition to confirmed. *)
Theorem completed_at_set_on_completion_only req db r w :
  handleValidationErrors req = None ->
  run_update req db = (Returned r, w) ->
  status_code r = 200%nat ->
  exists wd admin stored,
    find_withdrawal (params_id req) db = Some wd
    /\ req_user req = Some admin
    /\ find_withdrawal (params_id req) (committed w) = Some stored
    /\ JString (status stored) = body_status req
    /\ processed_at stored = Some (now 0)
    /\ processed_by stored = Some (auth_id admin)
    /\ completed_at stored
       = (if strict_eq (body_status req) "completed"
          then Some (now 1%nat) else completed_at wd)
    /\ data r = WithdrawalData
                  {| values := stored;
                     user := option_map project_user (find_user (userId wd) db) |}.
Proof.
  intros Hv Hrun Hcode. pose proof (update_cases req db) as H.
  rewrite Hrun in H.
  destruct H as ([(_ & Hr & _)|(wd & admin & s & Ha & _ & Hc & Ho)] & _).
  - destruct (Hr r eq_refl Hv Hcode).
  - exists wd, admin, (apply_update (built_update req s admin) wd).
    rewrite Hc, (find_withdrawal_effect _ _ _ _ _ Ha).
    destruct Ha as (_ & Hs & _ & Hf & _ & Hu).
    inversion Ho; subst r. rewrite Hs. cbn.
    repeat split; try assumption.
    destruct (s =? "completed")%string; reflexivity.
Qed.

End Update.

Section Listing.

Variable handleValidationErrors : Request -> option Response.
Variable faults : nat -> DbOp -> option JsError.

Local Abbreviation run_list req db :=
  (getAllWithdrawals handleValidationErrors faults req (initial db)).

(** The key of [whereClause] that a query parameter sets, if it sets one. *)
Definition given (v : option string) : option string :=
  if truthy_str v then v else None.

(** The returned row [x] stands for the withdrawal [wd]: it carries its id,
    its status, its owner and its creation time. *)
Definition shows (wd : Withdrawal) (x : ListedWithdrawal) : Prop :=
  l_id x = w_id wd /\ l_status x = status wd /\ l_userId x = userId wd
  /\ l_createdAt x = createdAt wd.

(** [a] may come before [b] in a listing. *)
Definition newer_first (a b : Withdrawal) : Prop := createdAt b <= createdAt a.

Lemma insert_desc_perm x l : Permutation (insert_desc x l) (x :: l).
Proof.
  induction l as [|y l IH]; simpl; [reflexivity|].
  destruct (created_desc x y); [reflexivity|].
  rewrite IH. apply perm_swap.
Qed.

Lemma order_desc_perm l : Permutation (order_desc l) l.
Proof.
  induction l as [|x l IH]; simpl; [reflexivity|].
  rewrite insert_desc_perm. now constructor.
Qed.

Lemma insert_desc_hd x y l :
  newer_first y x -> HdRel newer_first y l -> HdRel newer_first y (insert_desc x l).
Proof.
  intros Hyx Hhd. destruct l as [|z l]; simpl.
  - now constructor.
  - destruct (created_desc x z); constructor; [exact Hyx|].
    now inversion Hhd.
Qed.

Lemma insert_desc_sorted x l :
  Sorted newer_first l -> Sorted newer_first (insert_desc x l).
Proof.
  induction l as [|y l IH]; simpl; intros Hs.
  - repeat constructor.
  - inversion Hs as [|? ? Hl Hhd]; subst.
    destruct (created_desc x y) eqn:E; unfold created_desc in E.
    + constructor; [exact Hs|]. constructor. unfold newer_first. lia.
    + constructor; [now apply IH|].
      apply insert_desc_hd; [unfold newer_first; lia | exact Hhd].
Qed.

Lemma order_desc_sorted l : StronglySorted newer_first (order_desc l).
Proof.
  apply Sorted_StronglySorted.
  - intros a b c Hab Hbc. unfold newer_first in *. lia.
  - induction l as [|x l IH]; simpl; [constructor|].
    now apply insert_desc_sorted.
Qed.

Lemma listed_sorted db rows :
  StronglySorted newer_first rows ->
  StronglySorted (fun a b => l_createdAt b <= l_createdAt a)
                 (map (listed db) rows).
Proof.
  induction 1 as [|x l Hl IH Hx]; simpl; constructor; [exact IH|].
  rewrite Forall_map. exact Hx.
Qed.

Lemma shows_listed db l : Forall2 shows l (map (listed db) l).
Proof.
  induction l as [|x l IH]; simpl; constructor; [|exact IH].
  repeat split.
Qed.

Ltac run_listing :=
  unfold getAllWithdrawals, Withdrawal_findAll, console_error, bind,
    try_catch, db_call, ret; cbn.

Lemma matches_iff ws wu x :
  matches ws wu x = true
  <-> match ws with Some s => status x = s | None => True end
      /\ match wu with Some u => userId x = u | None => True end.
Proof.
  unfold matches. rewrite andb_true_iff.
  destruct ws, wu; rewrite ?String.eqb_eq; tauto.
Qed.

(** C6.  A listing that passes the validators and is answered by the store
    is a 200 with the withdrawals that match the filters given, each as
    often as the table holds it, in the order of their creation times,
    newest first: every row returned carries the id, the status, the owner
    and the creation time of the withdrawal it stands for, so its status and
    its owner are the ones asked for.  With a status filter the withdrawals
    returned are exactly those of that status (and of the user, when that
    filter is given too). *)
Theorem listing_filters_and_orders req db :
  handleValidationErrors req = None ->
  faults 0%nat (OpFindAll (given (query_status req)) (given (query_userId req)))
  = None ->
  exists rows withdrawals r w,
    run_list req db = (Returned r, w)
    /\ status_code r = 200%nat
    /\ data r = WithdrawalList withdrawals (List.length withdrawals)
    /\ withdrawals = map (listed db) rows
    /\ Forall2 shows rows withdrawals
    /\ Permutation rows
         (filter (matches (given (query_status req)) (given (query_userId req)))
                 (Withdrawals db))
    /\ StronglySorted (fun a b => l_createdAt b <= l_createdAt a) withdrawals
    /\ (forall x, In x withdrawals ->
          match given (query_status req) with
          | Some s => l_status x = s
          | None => True
          end
          /\ match given (query_userId req) with
             | Some u => l_userId x = u
             | None => True
             end)
    /\ (forall s, query_status req = Some s -> s <> "" ->
        forall x, In x rows <->
                  In x (Withdrawals db) /\ status x = s
                  /\ match given (query_userId req) with
                     | Some u => userId x = u
                     | None => True
                     end)
    /\ committed w = db.
Proof.
  intros Hv Hf.
  run_listing. rewrite Hv. cbn.
  fold (given (query_status req)). fold (given (query_userId req)).
  rewrite Hf. cbn.
  eexists. eexists. eexists. eexists. split; [reflexivity|].
  split; [reflexivity|]. split; [cbn; reflexivity|].
  split; [reflexivity|].
  split; [apply shows_listed|].
  split; [apply order_desc_perm|].
  split; [apply listed_sorted, order_desc_sorted|].
  split; [|split; [|reflexivity]].
  - intros x Hx. apply in_map_iff in Hx. destruct Hx as (wd & <- & Hwd).
    apply (Permutation_in _ (order_desc_perm _)) in Hwd.
    apply filter_In in Hwd. destruct Hwd as (_ & Hm).
    apply matches_iff in Hm. exact Hm.
  - intros s Hq Hs x.
    assert (Hg : given (query_status req) = Some s).
    { unfold given. rewrite Hq. simpl. apply String.eqb_neq in Hs.
      now rewrite Hs. }
    rewrite Hg. split.
    + intros Hx. apply (Permutation_in _ (order_desc_perm _)) in Hx.
      apply filter_In in Hx. destruct Hx as (Hin & Hm).
      apply matches_iff in Hm. tauto.
    + intros (Hin & Hst & Hu).
      apply (Permutation_in _ (Permutation_sym (order_desc_perm _))).
      apply filter_In. split; [exact Hin|]. apply matches_iff. tauto.
Qed.

(** C7.  A listing that passes the validators and is answered by the store is
    a 200 success with the rows and their number, whether or not there are
    any; only the message tells the two apart, and there are no rows exactly
    when no withdrawal matches the filters. *)
Theorem empty_listing_is_success req db :
  handleValidationErrors req = None ->
  faults 0%nat (OpFindAll (given (query_status req)) (given (query_userId req)))
  = None ->
  exists withdrawals w,
    run_list req db
    = (Returned (json 200 true
                   (match withdrawals with
                    | [] => "No withdrawals found"
                    | _ => "Withdrawals retrieved successfully"
                    end)
                   (WithdrawalList withdrawals (List.length withdrawals))), w)
    /\ (withdrawals = [] <->
        filter (matches (given (query_status req)) (given (query_userId req)))
               (Withdrawals db) = []).
Proof.
  intros Hv Hf. run_listing. rewrite Hv. cbn.
  fold (given (query_status req)). fold (given (query_userId req)).
  rewrite Hf. cbn.
  eexists. eexists. split; [reflexivity|].
  set (m := filter _ _).
  split; intros H.
  - apply map_eq_nil in H.
    apply Permutation_nil. rewrite <- H. apply order_desc_perm.
  - rewrite H. reflexivity.
Qed.

End Listing.

Section Statistics.

Variable handleValidationErrors : Request -> option Response.
Variable faults : nat -> DbOp -> option JsError.

Local Abbreviation run_stats req db :=
  (getWithdrawalStats handleValidationErrors faults req (initial db)).



Definition total_amount (rows : list Withdrawal) : Z :=
  fold_right (fun r acc => amount r + acc) 0 rows.














(** Reading an integer gives a zero only for zero, and then the zero that
    [|| 0] gives. *)
Lemma or_zero_to_Number x : or_zero (Some (to_Number x)) = to_Number x.
Proof.
  unfold to_Number. cbv zeta.
  destruct (Z.abs x <? 2 ^ 53) eqn:E.
  - cbn. destruct (x =? 0) eqn:Ex; [|reflexivity].
    apply Z.eqb_eq in Ex. now subst.
  - apply Z.ltb_ge in E.
    set (a := Z.abs x) in *. set (e := Z.log2 a - 52).
    set (q := a / 2 ^ e). set (r := a mod 2 ^ e).
    set (m := if (_ || _)%bool then q + 1 else q).
    destruct (2 ^ 1024 <=? m * 2 ^ e); [reflexivity|]. cbn.
    assert (Ha : 0 < a) by (change (2 ^ 53) with 9007199254740992 in E; lia).
    destruct (Z.log2_spec a Ha) as [Hlo Hhi].
    assert (He : 0 <= e).
    { unfold e. assert (53 <= Z.log2 a); [|lia].
      apply Z.log2_le_pow2; [lia | exact E]. }
    assert (Hpe : 0 < 2 ^ e) by (apply Z.pow_pos_nonneg; lia).
    assert (Hle : 2 ^ e <= a).
    { apply Z.le_trans with (2 ^ Z.log2 a); [|exact Hlo].
      apply Z.pow_le_mono_r; unfold e; lia. }
    assert (Hq : 1 <= q).
    { unfold q. apply Z.div_le_lower_bound; lia. }
    assert (Hm : 1 <= m) by (unfold m; destruct (_ || _); lia).
    destruct (Z.sgn x * m =? 0) eqn:Ez; [|reflexivity].
    apply Z.eqb_eq in Ez. unfold a in Ha. lia.
Qed.

Lemma or_zero_sum rows :
  or_zero (option_map read_sum (sum_amount rows))
  = read_sum (total_amount rows).
Proof.
  destruct rows as [|r rows]; [reflexivity|].
  unfold sum_amount, read_sum. cbn [option_map].
  fold (total_amount (r :: rows)). apply or_zero_to_Number.
Qed.
















End Statistics.

(** ** The theorems at the scenarios of the spec *)

(** Withdrawal 2 is completed; rejecting it is refused and changes nothing. *)
Lemma terminal_transition_refused_witness :
  (committed (snd (updateWithdrawalStatus validators_pass no_faults clock
                     (change "2" (JString "rejected") (Some acting_admin))
                     (initial store))) = store
   /\ existsb is_write
        (trace (snd (updateWithdrawalStatus validators_pass no_faults clock
                       (change "2" (JString "rejected") (Some acting_admin))
                       (initial store)))) = false)
  /\ exists w,
       updateWithdrawalStatus validators_pass no_faults clock
         (change "2" (JString "rejected") (Some acting_admin)) (initial store)
       = (Returned (json 400 false
                      "Withdrawal cannot be updated from completed status"
                      NoData), w)
       /\ transaction w = None
       /\ last (trace w) OpCommit = OpRollback.
Proof.
  assert (Ht : terminal (status withdrawal_2)) by (unfold terminal; simpl; auto).
  destruct (terminal_transition_refused validators_pass no_faults clock
              (change "2" (JString "rejected") (Some acting_admin)) store
              withdrawal_2 eq_refl Ht) as (Hkept & Hanswer).
  split; [exact Hkept|].
  exact (Hanswer eq_refl eq_refl eq_refl (fun _ => eq_refl)).
Defined.

(** Withdrawal 1 of 50 fails; its owner had 100 and has 150. *)
Lemma refund_commits_with_status_witness :
  exists out w,
    updateWithdrawalStatus validators_pass no_faults clock
      (change "1" (JString "failed") (Some acting_admin)) (initial store)
    = (out, w)
    /\ out = Returned
               (success_response clock
                  (change "1" (JString "failed") (Some acting_admin)) store
                  withdrawal_1 acting_admin "failed")
    /\ committed w
       = transition_effect withdrawal_1
           (built_update clock
              (change "1" (JString "failed") (Some acting_admin)) "failed"
              acting_admin)
           store
    /\ trace w = [OpTransaction; OpFindByPk "1"; OpUserIncrement "7" 50;
                  OpWithdrawalUpdate "1"; OpCommit]
    /\ (exists stored,
           find_withdrawal "1" (committed w) = Some stored
           /\ status stored = "failed")
    /\ (exists u',
           find_user "7" (committed w) = Some u' /\ walletBalance u' = 150).
Proof.
  apply (refund_commits_with_status validators_pass no_faults clock
           (change "1" (JString "failed") (Some acting_admin)) store
           withdrawal_1 owner acting_admin "failed").
  - unfold Admissible. simpl. repeat split; auto.
  - left. reflexivity.
  - reflexivity.
Defined.

(** Withdrawal 3 is completed at the second clock reading; withdrawal 1 is
    confirmed and its [completed_at] stays null. *)
Lemma completed_at_set_on_completion_only_witness :
  (exists stored,
      find_withdrawal "3"
        (committed (snd (updateWithdrawalStatus validators_pass no_faults clock
                           (change "3" (JString "completed") (Some acting_admin))
                           (initial store))))
      = Some stored
      /\ status stored = "completed"
      /\ processed_at stored = Some 5000
      /\ processed_by stored = Some "admin-1"
      /\ completed_at stored = Some 5001)
  /\
  (exists stored,
      find_withdrawal "1"
        (committed (snd (updateWithdrawalStatus validators_pass no_faults clock
                           (change "1" (JString "confirmed") (Some acting_admin))
                           (initial store))))
      = Some stored
      /\ status stored = "confirmed"
      /\ processed_at stored = Some 5000
      /\ processed_by stored = Some "admin-1"
      /\ completed_at stored = None).
Proof.
  split.
  - set (run := updateWithdrawalStatus validators_pass no_faults clock
                  (change "3" (JString "completed") (Some acting_admin))
                  (initial store)).
    destruct (completed_at_set_on_completion_only validators_pass no_faults
                clock (change "3" (JString "completed") (Some acting_admin))
                store (answer (fst run)) (snd run)
                eq_refl eq_refl eq_refl)
      as (wd & admin & stored & Hwd & Hadmin & Hstored & Hst & Hat & Hby
          & Hdone & _).
    exists stored. inversion Hwd; subst wd. inversion Hadmin; subst admin.
    inversion Hst. repeat split; assumption.
  - set (run := updateWithdrawalStatus validators_pass no_faults clock
                  (change "1" (JString "confirmed") (Some acting_admin))
                  (initial store)).
    destruct (completed_at_set_on_completion_only validators_pass no_faults
                clock (change "1" (JString "confirmed") (Some acting_admin))
                store (answer (fst run)) (snd run)
                eq_refl eq_refl eq_refl)
      as (wd & admin & stored & Hwd & Hadmin & Hstored & Hst & Hat & Hby
          & Hdone & _).
    exists stored. inversion Hwd; subst wd. inversion Hadmin; subst admin.
    inversion Hst. repeat split; assumption.
Defined.

(** A change without a status, and one to a status that is no target. *)
Lemma invalid_status_refused_witness :
  updateWithdrawalStatus validators_pass no_faults clock
    (change "1" JUndefined (Some acting_admin)) (initial store)
  = (Returned (json 400 false "Status is required" NoData),
     {| committed := store; transaction := None;
        trace := [OpTransaction; OpRollback]; console := []; ticks := 0 |})
  /\
  updateWithdrawalStatus validators_pass no_faults clock
    (change "1" (JString "pending") (Some acting_admin)) (initial store)
  = (Returned (json 400 false
                 "Invalid status. Must be one of: confirmed, completed, failed, rejected"
                 NoData),
     {| committed := store; transaction := None;
        trace := [OpTransaction; OpRollback]; console := []; ticks := 0 |}).
Proof.
  assert (Hv : forall req r, validators_pass req = Some r -> status_code r = 400%nat)
    by (intros req r H; discriminate H).
  split.
  - destruct (invalid_status_refused validators_pass no_faults clock
                (change "1" JUndefined (Some acting_admin)) store eq_refl)
      as (_ & Hanswer).
    destruct (Hanswer (Hv _) eq_refl eq_refl) as (r & Hrun & _ & Hr).
    rewrite (Hr eq_refl) in Hrun. exact Hrun.
  - destruct (invalid_status_refused validators_pass no_faults clock
                (change "1" (JString "pending") (Some acting_admin)) store
                eq_refl)
      as (_ & Hanswer).
    destruct (Hanswer (Hv _) eq_refl eq_refl) as (r & Hrun & _ & Hr).
    rewrite (Hr eq_refl) in Hrun. exact Hrun.
Defined.

(** Confirming withdrawal 1 with nobody signed in. *)
Lemma missing_admin_rolls_back_witness :
  (committed (snd (updateWithdrawalStatus validators_pass no_faults clock
                     (change "1" (JString "confirmed") None) (initial store)))
   = store
   /\ existsb is_write
        (trace (snd (updateWithdrawalStatus validators_pass no_faults clock
                       (change "1" (JString "confirmed") None)
                       (initial store)))) = false)
  /\
  updateWithdrawalStatus validators_pass no_faults clock
    (change "1" (JString "confirmed") None) (initial store)
  = (Returned (json 500 false "Failed to update withdrawal status" NoData),
     {| committed := store; transaction := None;
        trace := [OpTransaction; OpFindByPk "1"; OpRollback];
        console :=
          [ConsoleError "Update withdrawal status error:"
             (TypeError "Cannot read properties of undefined (reading 'id')")];
        ticks := 1 |}).
Proof.
  destruct (missing_admin_rolls_back validators_pass no_faults clock
              (change "1" (JString "confirmed") None) store withdrawal_1
              eq_refl eq_refl (or_introl eq_refl)) as (Hkept & Hanswer).
  split; [exact Hkept|].
  exact (Hanswer eq_refl eq_refl eq_refl eq_refl eq_refl).
Defined.

(** The pending withdrawals of the store are 3 and 1, newest first. *)
Lemma listing_filters_and_orders_witness :
  exists rows withdrawals r w,
    getAllWithdrawals validators_pass no_faults (query (Some "pending"))
      (initial store)
    = (Returned r, w)
    /\ status_code r = 200%nat
    /\ data r = WithdrawalList withdrawals (List.length withdrawals)
    /\ Forall2 shows rows withdrawals
    /\ Permutation rows [withdrawal_1; withdrawal_3]
    /\ StronglySorted (fun a b => l_createdAt b <= l_createdAt a) withdrawals
    /\ (forall x, In x withdrawals -> l_status x = "pending")
    /\ (forall x, In x rows <->
                  In x (Withdrawals store) /\ status x = "pending" /\ True)
    /\ map l_id withdrawals = ["3"; "1"]
    /\ committed w = store.
Proof.
  destruct (listing_filters_and_orders validators_pass no_faults
              (query (Some "pending")) store eq_refl eq_refl)
    as (rows & withdrawals & r & w & Hrun & Hcode & Hdata & Hlisted & Hshows
        & Hperm & Hsorted & Hasked & Hexact & Hkept).
  exists rows, withdrawals, r, w.
  split; [exact Hrun|]. split; [exact Hcode|]. split; [exact Hdata|].
  split; [exact Hshows|]. split; [exact Hperm|]. split; [exact Hsorted|].
  split; [intros x Hx; exact (proj1 (Hasked x Hx))|].
  split; [apply (Hexact "pending" eq_refl); discriminate|].
  split; [|exact Hkept].
  inversion Hrun as [[Hr Hw]]. rewrite <- Hr in Hdata.
  inversion Hdata as [[Hrows Hlen]]. reflexivity.
Defined.

(** No withdrawal of the store has failed. *)
Lemma empty_listing_is_success_witness :
  exists withdrawals w,
    getAllWithdrawals validators_pass no_faults (query (Some "failed"))
      (initial store)
    = (Returned (json 200 true
                   (match withdrawals with
                    | [] => "No withdrawals found"
                    | _ => "Withdrawals retrieved successfully"
                    end)
                   (WithdrawalList withdrawals (List.length withdrawals))), w)
    /\ (withdrawals = [] <-> @nil Withdrawal = []).
Proof.
  apply (empty_listing_is_success validators_pass no_faults
           (query (Some "failed")) store); reflexivity.
Defined.



End AdminWithdrawalFacts.

(* ================================================================== *)
(** * The withdrawal handlers: errors, frame and composition *)
(* ================================================================== *)

Module AdminWithdrawalMore.
Import Js AdminWithdrawalController AdminWithdrawalFacts.

Section Transitions.

Variable handleValidationErrors : Request -> option Response.
Variable faults : nat -> DbOp -> option JsError.
Variable now : nat -> Z.

Local Abbreviation run_update req db :=
  (updateWithdrawalStatus handleValidationErrors faults now req (initial db)).

(** The calls of a transition of [wd] to [s] that the store answers, in
    their order. *)
Definition transition_trace (req : Request) (wd : Withdrawal) (s : string)
  : list DbOp :=
  ([OpTransaction; OpFindByPk (params_id req)]
   ++ (if refunds s then [OpUserIncrement (userId wd) (amount wd)] else [])
   ++ [OpWithdrawalUpdate (w_id wd); OpCommit])%list.

(** The console line of the notification after the commit: the owner's
    address when the owner was loaded, else the error of reading it. *)
(** Does the store answer the calls of a transition that come before the
    commit: the lookup, the refund when there is one, and the update? *)
Definition reaches_commit (wd : Withdrawal) (s : string) : bool :=
  succeeds faults 1 (OpFindByPk (w_id wd))
  && (if refunds s
      then succeeds faults 2 (OpUserIncrement (userId wd) (amount wd))
           && succeeds faults 3 (OpWithdrawalUpdate (w_id wd))
      else succeeds faults 2 (OpWithdrawalUpdate (w_id wd))).

Definition notification (req : Request) (db : Database) (wd : Withdrawal)
    (s : string) : LogEntry :=
  match find_user (userId wd) db with
  | Some u =>
      ConsoleLog ("Withdrawal " ++ params_id req ++ " status updated to " ++ s
                  ++ " for user " ++ user_email u)
  | None =>
      ConsoleError "Failed to send notification:"
        (TypeError "Cannot read properties of null (reading 'email')")
  end.

(** The columns of a withdrawal that no status change writes, and the
    columns of a user apart from the balance. *)
Definition fixed_part (r : Withdrawal)
  : string * string * Z * string * string * Z * string :=
  (w_id r, transaction_id r, amount r, withdrawalMethod r, walletAddress r,
   createdAt r, userId r).

Definition account (u : User) : string * string * string :=
  (user_id u, user_email u, user_username u).

(** The five statuses of a withdrawal. *)
Definition statuses : list string :=
  ["pending"; "confirmed"; "completed"; "failed"; "rejected"].

(** A store that refuses to open a transaction, and one that refuses the
    update of a withdrawal. *)
Definition no_connection : nat -> DbOp -> option JsError :=
  fun _ op => match op with
              | OpTransaction => Some (Error "connection refused")
              | _ => None
              end.

Definition update_fails : nat -> DbOp -> option JsError :=
  fun _ op => match op with
              | OpWithdrawalUpdate _ => Some (Error "deadlock detected")
              | _ => None
              end.

(** A store that refuses the listing query, and one that refuses the sum
    of the amounts. *)
Definition query_fails : nat -> DbOp -> option JsError :=
  fun _ op => match op with
              | OpFindAll _ _ => Some (Error "connection lost")
              | _ => None
              end.

Definition sum_fails : nat -> DbOp -> option JsError :=
  fun _ op => match op with
              | OpSum => Some (Error "statement timeout")
              | _ => None
              end.

(** Validators that refuse a change without a body status. *)
Definition validators_strict : Request -> option Response :=
  fun req => match body_status req with
             | JUndefined => Some (json 400 false "Validation failed" NoData)
             | _ => None
             end.

(** A withdrawal whose owner is not in the table of users. *)
Definition withdrawal_4 : Withdrawal :=
  {| w_id := "4"; transaction_id := "TX-4"; amount := 30;
     withdrawalMethod := "bank"; walletAddress := "0xD4";
     status := "confirmed"; createdAt := 4000; processed_at := Some 4100;
     completed_at := None; userId := "9"; admin_notes := Some "checked";
     processed_by := Some "admin-2" |}.

Definition store_with_orphan : Database :=
  {| Withdrawals := [withdrawal_1; withdrawal_4]; Users := [owner] |}.

(** A change with notes for the record. *)
Definition change_with_notes (id : string) (target : JsValue)
    (notes : option string) : Request :=
  {| params_id := id; query_status := None; query_userId := None;
     body_status := target; body_adminNotes := notes;
     req_user := Some acting_admin |}.

Ltac unfold_handler :=
  unfold updateWithdrawalStatus, sequelize_transaction, transaction_rollback,
    transaction_commit, User_update_walletBalance, withdrawal_update,
    withdrawal_user_email, Withdrawal_findByPk, req_user_id, console_error,
    console_log, new_Date, bind, try_catch, db_call, ret, throw; cbn.

Ltac store_answers :=
  repeat match goal with
         | |- context [faults ?n ?op] => destruct (faults n op) eqn:?; cbn
         end.

(** The run of a transition on which the store answers every call. *)
Lemma transition_run req db wd admin s :
  Admissible handleValidationErrors req db wd admin s ->
  calls_succeed faults wd s = true ->
  run_update req db
  = (Returned (success_response now req db wd admin s),
     {| committed := transition_effect wd (built_update now req s admin) db;
        transaction := None;
        trace := transition_trace req wd s;
        console := [notification req db wd s];
        ticks := if (s =? "completed")%string then 2 else 1 |}).
Proof.
  intros (Hv & Hs & Hin & Hf & Hn & Ha) Hok.
  pose proof (find_withdrawal_id _ _ _ Hf) as Hid.
  unfold calls_succeed in Hok.
  unfold transition_trace, notification, success_response, transition_effect,
    built_update.
  simpl in Hin.
  destruct Hin as [<-|[<-|[<-|[<-|[]]]]];
    match type of Hok with
    | context [refunds ?x] =>
        let b := eval vm_compute in (refunds x) in
        change (refunds x) with b in Hok; change (refunds x) with b
    end;
    cbv beta iota in Hok;
    repeat match goal with
           | H : _ && _ = true |- _ => apply andb_true_iff in H; destruct H
           end;
    repeat match goal with
           | H : succeeds _ _ _ = true |- _ => apply succeeds_None in H
           end;
    rewrite Hid in *;
    unfold_handler;
    repeat (first [ rewrite Hv | rewrite Hs | rewrite Hf | rewrite Ha
                  | rewrite (open_guard _ Hn) | rewrite Hid
                  | match goal with
                    | H : faults _ _ = None |- _ => rewrite H
                    end ]; cbn);
    unfold status_of; cbn;
    repeat (first [ rewrite Hv | rewrite Hs | rewrite Hf | rewrite Ha
                  | rewrite (open_guard _ Hn) | rewrite Hid
                  | match goal with
                    | H : faults _ _ = None |- _ => rewrite H
                    end ]; cbn);
    destruct (find_user (userId wd) db); cbn;
    destruct (truthy_str (body_adminNotes req)); reflexivity.
Qed.

Ltac answered :=
  split;
  [ let H := fresh in
    intros ? H; inversion H; subst; (split; [reflexivity | simpl; auto])
  | let H := fresh in
    intros ? H; inversion H; subst;
    first [ left; reflexivity | right; eexists; eassumption ] ].

(** How a run ends, whatever the request, the validators and the store. *)
Lemma update_outcomes req db :
  let '(out, w) := run_update req db in
  (forall r, out = Returned r ->
     transaction w = None
     /\ In (last (trace w) OpTransaction) [OpCommit; OpRollback])
  /\ (forall e, out = Thrown e ->
        faults 0%nat OpTransaction = Some e
        \/ exists n, faults n OpRollback = Some e).
Proof.
  unfold_handler.
  destruct (faults 0%nat OpTransaction) eqn:Ftx; cbn; [answered|].
  destruct (handleValidationErrors req) eqn:Hv; cbn;
    [store_answers; answered|].
  destruct (truthy (body_status req)) eqn:Ht; cbn;
    [|store_answers; answered].
  destruct (includes validStatuses (body_status req)) eqn:Hi; cbn;
    [|store_answers; answered].
  destruct (includes_inv _ Hi) as (s & Hs & Hin).
  destruct (faults 1%nat (OpFindByPk (params_id req))) eqn:Ffind; cbn;
    [store_answers; answered|].
  destruct (find_withdrawal (params_id req) db) as [wd|] eqn:Hfind; cbn;
    [|store_answers; answered].
  unfold status_of. cbn.
  destruct (negb (status wd =? "pending")%string
            && negb (status wd =? "confirmed")%string) eqn:Hst; cbn;
    [store_answers; answered|].
  destruct (req_user req) as [admin|] eqn:Hadmin; cbn;
    [|store_answers; answered].
  rewrite Hs. cbn [strict_eq to_String].
  destruct (s =? "completed")%string eqn:Hc;
    destruct ((s =? "failed")%string || (s =? "rejected")%string) eqn:Hr; cbn;
    store_answers.
  all: try (destruct (find_user (userId wd) db) eqn:Hu; cbn).
  all: answered.
Qed.

(** *** The tables after a transition *)

Lemma effect_withdrawals wd ud db :
  Withdrawals (transition_effect wd ud db)
  = map (fun r => if (w_id r =? w_id wd)%string then apply_update ud r else r)
        (Withdrawals db).
Proof. unfold transition_effect. destruct (refunds _); reflexivity. Qed.

Lemma effect_users wd ud db :
  Users (transition_effect wd ud db)
  = if refunds (ud_status ud)
    then Users (increment_balance (userId wd) (amount wd) db)
    else Users db.
Proof. unfold transition_effect. destruct (refunds _); reflexivity. Qed.

Lemma Forall2_same {A} (R : A -> A -> Prop) (l : list A) :
  (forall x, R x x) -> Forall2 R l l.
Proof. intros H. induction l; constructor; auto. Qed.

Lemma Forall2_map_right {A} (R : A -> A -> Prop) (f : A -> A) (l : list A) :
  (forall x, R x (f x)) -> Forall2 R l (map f l).
Proof. intros H. induction l; simpl; constructor; auto. Qed.

Lemma increment_without_owner uid amt db :
  find_user uid db = None ->
  Users (increment_balance uid amt db) = Users db.
Proof.
  unfold find_user, increment_balance. simpl. intros H.
  induction (Users db) as [|u l IH]; simpl in *; [reflexivity|].
  destruct (user_id u =? uid)%string; [discriminate|].
  now rewrite IH.
Qed.

Lemma refunds_target req s :
  body_status req = JString s -> refunds s = true ->
  body_status req = JString "failed" \/ body_status req = JString "rejected".
Proof.
  intros Hs Hr. unfold refunds in Hr. apply orb_true_iff in Hr.
  destruct Hr as [H|H]; apply String.eqb_eq in H; subst; auto.
Qed.

(** X1.  The change of a withdrawal that does not exist is answered 404: the
    store has seen the opening of the transaction, the lookup and the
    rollback, and the tables are as before. *)
Theorem unknown_withdrawal_answers_404 req db :
  handleValidationErrors req = None ->
  includes validStatuses (body_status req) = true ->
  find_withdrawal (params_id req) db = None ->
  faults 0%nat OpTransaction = None ->
  faults 1%nat (OpFindByPk (params_id req)) = None ->
  faults 2%nat OpRollback = None ->
  run_update req db
  = (Returned (json 404 false "Withdrawal not found" NoData),
     {| committed := db; transaction := None;
        trace := [OpTransaction; OpFindByPk (params_id req); OpRollback];
        console := []; ticks := 0 |}).
Proof.
  intros Hv Hi Hf Ftx Ffind Frb.
  destruct (includes_inv _ Hi) as (s & Hs & Hin).
  unfold_handler. rewrite Ftx, Hv. cbn.
  rewrite Hs, (valid_truthy _ Hin). cbn [negb].
  rewrite (valid_includes _ Hin). cbn.
  rewrite Ffind. cbn. rewrite Hf. cbn. rewrite Frb. cbn. reflexivity.
Qed.

(** X2.  When the validators refuse a change, their response is the answer:
    the transaction is opened and rolled back and the store sees nothing
    else. *)
Theorem validation_refusal_rolls_back req db refusal :
  handleValidationErrors req = Some refusal ->
  faults 0%nat OpTransaction = None ->
  faults 1%nat OpRollback = None ->
  updateWithdrawalStatus handleValidationErrors faults now req (initial db)
  = (Returned refusal,
     {| committed := db; transaction := None;
        trace := [OpTransaction; OpRollback]; console := []; ticks := 0 |}).
Proof.
  intros Hv Ftx Frb. unfold_handler. rewrite Ftx, Hv. cbn. rewrite Frb.
  reflexivity.
Qed.

(** X3.  Whenever the handler answers, with whatever response, the
    transaction is closed, and the last call the store has seen is the
    commit or a rollback. *)
Theorem answer_closes_transaction req db r w :
  updateWithdrawalStatus handleValidationErrors faults now req (initial db)
  = (Returned r, w) ->
  transaction w = None
  /\ (last (trace w) OpTransaction = OpCommit
      \/ last (trace w) OpTransaction = OpRollback).
Proof.
  intros Hrun. pose proof (update_outcomes req db) as H.
  rewrite Hrun in H. destruct H as (H & _).
  destruct (H r eq_refl) as (Hclosed & Hlast). split; [exact Hclosed|].
  simpl in Hlast. intuition auto.
Qed.

(** X4.  The handler answers whenever the store opens the transaction and
    answers the rollbacks; when the opening is refused, the handler throws
    that error, with no response and no other call on the store. *)
Theorem answers_unless_transaction_fails req db :
  (faults 0%nat OpTransaction = None ->
   (forall n, faults n OpRollback = None) ->
   exists r w,
     updateWithdrawalStatus handleValidationErrors faults now req (initial db)
     = (Returned r, w))
  /\ (forall e, faults 0%nat OpTransaction = Some e ->
        updateWithdrawalStatus handleValidationErrors faults now req
          (initial db)
        = (Thrown e,
           {| committed := db; transaction := None; trace := [OpTransaction];
              console := []; ticks := 0 |})).
Proof.
  split.
  - intros Ftx Frb. pose proof (update_outcomes req db) as H.
    destruct (run_update req db) as [[r|e] w]; [eauto|].
    destruct H as (_ & H). destruct (H e eq_refl) as [He|(n & He)]; congruence.
  - intros e Ftx. unfold_handler. rewrite Ftx. reflexivity.
Qed.

(** X5.  A store error before the commit: when the lookup, the refund or
    the update of a valid request is refused, after the transaction was
    opened, and the store answers the rollback, the commit is not tried, the
    tables are as before, also when the refund was already written in the
    transaction, the error is written to the console, and the answer is the
    generic 500. *)
Theorem store_fault_answers_500 req db wd admin s :
  Admissible handleValidationErrors req db wd admin s ->
  reaches_commit wd s = false ->
  faults 0%nat OpTransaction = None ->
  (forall n, faults n OpRollback = None) ->
  exists e w,
    run_update req db
    = (Returned (json 500 false "Failed to update withdrawal status" NoData), w)
    /\ committed w = db
    /\ transaction w = None
    /\ console w = [ConsoleError "Update withdrawal status error:" e]
    /\ ~ In OpCommit (trace w)
    /\ exists n op, op <> OpCommit /\ faults n op = Some e.
Proof.
  intros (Hv & Hs & Hin & Hf & Hn & Ha) Hok Ftx Frb.
  pose proof (find_withdrawal_id _ _ _ Hf) as Hid.
  unfold reaches_commit, succeeds in Hok.
  simpl in Hin.
  destruct Hin as [<-|[<-|[<-|[<-|[]]]]];
    match type of Hok with
    | context [refunds ?x] =>
        let b := eval vm_compute in (refunds x) in
        change (refunds x) with b in Hok
    end;
    cbv beta iota in Hok;
    unfold_handler; rewrite <- Hid in *;
    repeat (first [ rewrite Ftx | rewrite Hv | rewrite Hs | rewrite Hf
                  | rewrite Ha | rewrite (open_guard _ Hn) | rewrite Frb
                  | match goal with
                    | |- context [faults ?n ?op] =>
                        destruct (faults n op) eqn:?
                    end
                  | progress (unfold status_of) ]; cbn).
  all: try (exfalso;
            repeat match goal with
                   | H : faults _ _ = None |- _ => rewrite H in Hok; clear H
                   end; discriminate Hok).
  all: try (destruct (find_user (userId wd) db); cbn).
  all: try (exfalso;
            repeat match goal with
                   | H : faults _ _ = None |- _ => rewrite H in Hok; clear H
                   end; discriminate Hok).
  all: eexists; eexists; (split; [reflexivity|]); cbn;
    repeat (split; [reflexivity|]);
    (split; [intuition discriminate|]);
    eexists; eexists; (split; [|eassumption]); discriminate.
Qed.

(** X6.  A transition to confirmed or completed touches no user: when the
    store answers, the status update is the only write of the transaction
    and the answer is 200 with the new status stored; when a call is
    refused, the tables are as before.  The users are the same in both
    cases. *)
Theorem transition_without_refund req db wd admin s :
  Admissible handleValidationErrors req db wd admin s ->
  s = "confirmed" \/ s = "completed" ->
  exists out w,
    run_update req db = (out, w)
    /\ Users (committed w) = Users db
    /\ if calls_succeed faults wd s
       then out = Returned (success_response now req db wd admin s)
            /\ trace w = [OpTransaction; OpFindByPk (params_id req);
                          OpWithdrawalUpdate (w_id wd); OpCommit]
            /\ (exists stored,
                   find_withdrawal (params_id req) (committed w) = Some stored
                   /\ status stored = s)
       else committed w = db.
Proof.
  intros Ha Hs.
  assert (Hrf : refunds s = false) by (destruct Hs; subst; reflexivity).
  destruct (calls_succeed faults wd s) eqn:Hok.
  - rewrite (transition_run _ _ _ _ _ Ha Hok).
    eexists. eexists. split; [reflexivity|]. cbn [committed trace].
    split; [rewrite effect_users; cbn [ud_status built_update];
            now rewrite Hrf|].
    split; [reflexivity|].
    split; [unfold transition_trace; now rewrite Hrf|].
    rewrite (find_withdrawal_effect _ _ _ _ _ _ _ Ha).
    eexists. split; reflexivity.
  - pose proof (update_cases handleValidationErrors faults now req db) as H.
    destruct (run_update req db) as [out w]. exists out, w.
    split; [reflexivity|].
    destruct H as ([(Hc & _)|(wd' & admin' & s' & Ha' & Hok' & _)] & _).
    + rewrite Hc. split; reflexivity.
    + destruct (Admissible_fun _ _ _ _ _ _ _ _ _ Ha Ha') as (-> & -> & ->).
      congruence.
Qed.

(** X7.  What a status change cannot do, whatever the request, the
    validators and the store: it creates, deletes and reorders no row; it
    leaves identifier, transaction id, amount, method, address, creation
    time and owner of every withdrawal, and every withdrawal but the one
    named by the request entirely; it leaves identifier, email and username
    of every user, and a balance that changes is the balance of the owner of
    the withdrawal named, raised by its amount on a request for failed or
    rejected. *)
Theorem status_change_frame req db :
  Forall2 (fun r r' => fixed_part r' = fixed_part r
                       /\ (w_id r <> params_id req -> r' = r))
          (Withdrawals db) (Withdrawals (committed (snd (run_update req db))))
  /\ Forall2 (fun u u' =>
                account u' = account u
                /\ (walletBalance u' = walletBalance u
                    \/ exists wd,
                         find_withdrawal (params_id req) db = Some wd
                         /\ user_id u = userId wd
                         /\ walletBalance u' = walletBalance u + amount wd
                         /\ (body_status req = JString "failed"
                             \/ body_status req = JString "rejected")))
             (Users db) (Users (committed (snd (run_update req db)))).
Proof.
  pose proof (update_cases handleValidationErrors faults now req db) as H.
  destruct (run_update req db) as [out w]. cbn [snd].
  destruct H as ([(Hc & _)|(wd & admin & s & Ha & _ & Hc & _)] & _);
    rewrite Hc.
  - split; apply Forall2_same; auto.
  - destruct Ha as (_ & Hs & _ & Hf & _).
    pose proof (find_withdrawal_id _ _ _ Hf) as Hid.
    rewrite effect_withdrawals, effect_users. split.
    + apply Forall2_map_right. intros x.
      destruct (w_id x =? w_id wd)%string eqn:E; [|auto].
      apply String.eqb_eq in E. split; [reflexivity|]. congruence.
    + cbn [ud_status built_update].
      destruct (refunds s) eqn:Hr; [|apply Forall2_same; auto].
      unfold increment_balance. cbn [Users].
      apply Forall2_map_right. intros x.
      destruct (user_id x =? userId wd)%string eqn:E; [|auto].
      apply String.eqb_eq in E. split; [reflexivity|]. right.
      exists wd. repeat split; auto. now apply refunds_target with (s := s).
Qed.

(** X8.  No refund without the refusal on record: when any balance
    differs after a request, the request was answered 200, it asked for
    failed or rejected, and the withdrawal it names, pending or confirmed
    before, is stored with that status by the same commit. *)
Theorem refund_only_with_recorded_refusal req db :
  Users (committed (snd (run_update req db))) <> Users db ->
  exists wd stored s r,
    fst (run_update req db) = Returned r
    /\ status_code r = 200%nat
    /\ body_status req = JString s
    /\ (s = "failed" \/ s = "rejected")
    /\ find_withdrawal (params_id req) db = Some wd
    /\ (status wd = "pending" \/ status wd = "confirmed")
    /\ find_withdrawal (params_id req) (committed (snd (run_update req db)))
       = Some stored
    /\ status stored = s.
Proof.
  pose proof (update_cases handleValidationErrors faults now req db) as H.
  destruct (run_update req db) as [out w]. cbn [fst snd]. intros Hmoved.
  destruct H as ([(Hc & _)|(wd & admin & s & Ha & _ & Hc & Hout)] & _);
    [now rewrite Hc in Hmoved|].
  pose proof (find_withdrawal_effect _ now _ _ _ _ _ Ha) as Hstored.
  rewrite <- Hc in Hstored.
  rewrite Hc, effect_users in Hmoved. cbn [ud_status built_update] in Hmoved.
  destruct (refunds s) eqn:Hr; [|now destruct Hmoved].
  destruct Ha as (_ & Hs & _ & Hf & Hopen & _).
  exists wd, (apply_update (built_update now req s admin) wd), s,
    (success_response now req db wd admin s).
  repeat split; auto.
  unfold refunds in Hr. apply orb_true_iff in Hr.
  destruct Hr as [E|E]; apply String.eqb_eq in E; auto.
Qed.

(** X9.  Every status stays one of the five: if each withdrawal of the store
    is pending, confirmed, completed, failed or rejected, so is each one
    after any request. *)
Theorem statuses_stay_valid req db :
  Forall (fun r => In (status r) statuses) (Withdrawals db) ->
  Forall (fun r => In (status r) statuses)
         (Withdrawals (committed (snd (run_update req db)))).
Proof.
  intros Hall.
  pose proof (update_cases handleValidationErrors faults now req db) as H.
  destruct (run_update req db) as [out w]. cbn [snd].
  destruct H as ([(Hc & _)|(wd & admin & s & Ha & _ & Hc & _)] & _);
    rewrite Hc; [exact Hall|].
  destruct Ha as (_ & _ & Hin & _).
  rewrite effect_withdrawals. apply Forall_map.
  revert Hall. apply Forall_impl. intros r Hr.
  destruct (w_id r =? w_id wd)%string; [|exact Hr].
  cbn [status apply_update ud_status built_update].
  unfold statuses. simpl in *. tauto.
Qed.

(** X10.  A withdrawal is moved out of pending and confirmed once: after a
    transition to completed, failed or rejected was answered with 200, any
    further request for that withdrawal, under any validators and store
    behaviour, tries no write and leaves the tables, and so the refunded
    balance, as they are. *)
Theorem finished_withdrawal_stays req db r w s :
  handleValidationErrors req = None ->
  run_update req db = (Returned r, w) ->
  status_code r = 200%nat ->
  body_status req = JString s ->
  terminal s ->
  forall validators store clock again,
    params_id again = params_id req ->
    committed (snd (updateWithdrawalStatus validators store clock again
                      (initial (committed w))))
    = committed w
    /\ existsb is_write
         (trace (snd (updateWithdrawalStatus validators store clock again
                        (initial (committed w))))) = false.
Proof.
  intros Hv Hrun Hcode Hs Ht validators store clock again Hid.
  pose proof (update_cases handleValidationErrors faults now req db) as H.
  rewrite Hrun in H.
  destruct H as ([(_ & Hr & _)|(wd & admin & s' & Ha & _ & Hc & _)] & _).
  - destruct (Hr r eq_refl Hv Hcode).
  - pose proof (find_withdrawal_effect _ now _ _ _ _ _ Ha) as Hstored.
    rewrite <- Hc in Hstored.
    destruct Ha as (_ & Hs' & _). rewrite Hs in Hs'. inversion Hs'; subst s'.
    apply terminal_never_written
      with (wd := apply_update (built_update now req s admin) wd).
    + now rewrite Hid.
    + exact Ht.
Qed.

(** X11.  The notification cannot undo a transition: when the owner of the
    withdrawal is not among the users, reading the owner's address throws
    after the commit; the error goes to the console, the answer is still
    200, the new status is committed, and no balance has changed. *)
Theorem notification_failure_is_isolated req db wd admin s :
  Admissible handleValidationErrors req db wd admin s ->
  find_user (userId wd) db = None ->
  calls_succeed faults wd s = true ->
  exists w,
    run_update req db
    = (Returned (success_response now req db wd admin s), w)
    /\ console w
       = [ConsoleError "Failed to send notification:"
            (TypeError "Cannot read properties of null (reading 'email')")]
    /\ find_withdrawal (params_id req) (committed w)
       = Some (apply_update (built_update now req s admin) wd)
    /\ Users (committed w) = Users db.
Proof.
  intros Ha Hu Hok. rewrite (transition_run _ _ _ _ _ Ha Hok).
  eexists. split; [reflexivity|]. cbn [console committed].
  split; [unfold notification; now rewrite Hu|].
  split; [exact (find_withdrawal_effect _ _ _ _ _ _ _ Ha)|].
  rewrite effect_users. destruct (refunds _); [|reflexivity].
  now apply increment_without_owner.
Qed.

(** X12.  Notes of the admin are stored when they are not empty; a request
    without notes, or with empty ones, leaves the notes of the withdrawal as
    they were. *)
Theorem admin_notes_kept_unless_given req db r w :
  handleValidationErrors req = None ->
  run_update req db = (Returned r, w) ->
  status_code r = 200%nat ->
  exists wd stored,
    find_withdrawal (params_id req) db = Some wd
    /\ find_withdrawal (params_id req) (committed w) = Some stored
    /\ admin_notes stored
       = match body_adminNotes req with
         | Some notes => if (notes =? "")%string then admin_notes wd
                         else Some notes
         | None => admin_notes wd
         end.
Proof.
  intros Hv Hrun Hcode.
  pose proof (update_cases handleValidationErrors faults now req db) as H.
  rewrite Hrun in H.
  destruct H as ([(_ & Hr & _)|(wd & admin & s & Ha & _ & Hc & _)] & _).
  - destruct (Hr r eq_refl Hv Hcode).
  - exists wd, (apply_update (built_update now req s admin) wd).
    rewrite Hc, (find_withdrawal_effect _ _ _ _ _ _ _ Ha).
    destruct Ha as (_ & _ & _ & Hf & _).
    split; [exact Hf|]. split; [reflexivity|].
    cbn. destruct (body_adminNotes req) as [notes|]; cbn; [|reflexivity].
    destruct (notes =? "")%string; reflexivity.
Qed.

End Transitions.

Section Reading.

Variable handleValidationErrors : Request -> option Response.
Variable faults : nat -> DbOp -> option JsError.

Local Abbreviation run_list req db :=
  (getAllWithdrawals handleValidationErrors faults req (initial db)).
Local Abbreviation run_stats req db :=
  (getWithdrawalStats handleValidationErrors faults req (initial db)).

Ltac unfold_readers :=
  unfold getAllWithdrawals, getWithdrawalStats, Withdrawal_findAll,
    Withdrawal_findAll_by_status, Withdrawal_count, Withdrawal_sum,
    console_error, bind, try_catch, db_call, ret, throw; cbn.

(** The calls the statistics make, in order. *)
Definition stats_calls : list DbOp := [OpFindAllByStatus; OpCount; OpSum].

(** The first call of [calls], numbered from [n], that the store refuses,
    with the calls made up to and including it. *)
Fixpoint first_refusal (n : nat) (calls : list DbOp)
  : option (JsError * list DbOp) :=
  match calls with
  | [] => None
  | op :: rest =>
      match faults n op with
      | Some e => Some (e, [op])
      | None =>
          match first_refusal (S n) rest with
          | Some (e, made) => Some (e, op :: made)
          | None => None
          end
      end
  end.

(** X13.  The listing is a read: whatever the request, the validators and
    the store do, it returns an answer and never rejects, opens no
    transaction, makes at most the one query and no write, and leaves the
    tables as they are; an answer of the validators is passed on without a
    call to the store. *)
Theorem listing_only_reads req db :
  exists r w,
    run_list req db = (Returned r, w)
    /\ committed w = db
    /\ transaction w = None
    /\ (trace w = []
        \/ trace w = [OpFindAll (given (query_status req))
                                (given (query_userId req))])
    /\ (forall refusal, handleValidationErrors req = Some refusal ->
          r = refusal /\ trace w = [] /\ console w = []).
Proof.
  unfold_readers. fold (given (query_status req)) (given (query_userId req)).
  destruct (handleValidationErrors req) as [v|]; cbn.
  - eexists. eexists. split; [reflexivity|]. cbn.
    repeat split; auto. congruence.
  - destruct (faults 0%nat _); cbn; eexists; eexists;
      (split; [reflexivity|]); cbn; repeat split; auto; discriminate.
Qed.

(** X14.  A query the store refuses is answered, not thrown: the listing
    logs the error of the store under "Get all withdrawals error:" and
    answers 500 "Failed to retrieve withdrawals" without data. *)
Theorem listing_store_fault_answers_500 req db e :
  handleValidationErrors req = None ->
  faults 0%nat (OpFindAll (given (query_status req)) (given (query_userId req)))
  = Some e ->
  exists w,
    run_list req db
    = (Returned (json 500 false "Failed to retrieve withdrawals" NoData), w)
    /\ console w = [ConsoleError "Get all withdrawals error:" e]
    /\ committed w = db.
Proof.
  intros Hv Hf. unfold_readers.
  fold (given (query_status req)) (given (query_userId req)).
  rewrite Hv. cbn. rewrite Hf. cbn.
  eexists. split; [reflexivity|]. cbn. split; reflexivity.
Qed.

(** X15.  A filter that is present but empty is no filter: with
    [?status=&userId=], as with no query at all, every withdrawal of the
    store is listed and the total is their number. *)
Theorem empty_filter_lists_everything req db :
  handleValidationErrors req = None ->
  given (query_status req) = None ->
  given (query_userId req) = None ->
  faults 0%nat (OpFindAll None None) = None ->
  exists rows w,
    run_list req db
    = (Returned (json 200 true
                   (match rows with
                    | [] => "No withdrawals found"
                    | _ => "Withdrawals retrieved successfully"
                    end)
                   (WithdrawalList (map (listed db) rows) (List.length rows))),
       w)
    /\ Permutation rows (Withdrawals db)
    /\ List.length rows = List.length (Withdrawals db).
Proof.
  intros Hv Hs Hu Hf. unfold_readers.
  fold (given (query_status req)) (given (query_userId req)).
  rewrite Hv, Hs, Hu. cbn. rewrite Hf. cbn.
  assert (Hall : filter (matches None None) (Withdrawals db) = Withdrawals db).
  { induction (Withdrawals db) as [|x xs IH]; [reflexivity|].
    cbn [filter]. change (matches None None x) with true. cbn. now rewrite IH. }
  rewrite Hall. pose proof (order_desc_perm (Withdrawals db)) as Hp.
  exists (order_desc (Withdrawals db)). eexists. split.
  - rewrite length_map. destruct (order_desc (Withdrawals db)); reflexivity.
  - split; [now apply Permutation_sym|].
    apply Permutation_length. now apply Permutation_sym.
Qed.

(** X16.  The statistics are a read that always answers: whatever the
    request, the validators and the store do, the function returns and
    never rejects, opens no transaction, makes only a prefix of its three
    queries, and leaves the tables as they are; an answer of the validators
    is passed on without a call to the store. *)
Theorem stats_only_read req db :
  exists r w,
    run_stats req db = (Returned r, w)
    /\ committed w = db
    /\ transaction w = None
    /\ (exists rest, stats_calls = (trace w ++ rest)%list)
    /\ (forall refusal, handleValidationErrors req = Some refusal ->
          r = refusal /\ trace w = [] /\ console w = []).
Proof.
  unfold_readers.
  destruct (handleValidationErrors req) as [v|]; cbn.
  - eexists. eexists. split; [reflexivity|]. cbn.
    repeat split; auto; [now exists stats_calls | congruence].
  - destruct (faults 0%nat _); cbn;
      [|destruct (faults 1%nat _); cbn; [|destruct (faults 2%nat _); cbn]];
      eexists; eexists; (split; [reflexivity|]); cbn;
      (repeat split; auto; try discriminate);
      [ now exists [OpCount; OpSum] | now exists [OpSum]
      | now exists [] | now exists [] ].
Qed.

(** X17.  The first of the three queries that the store refuses ends the
    statistics: the later queries are not made, the error is logged under
    "Get withdrawal stats error:", and the answer is 500 "Failed to retrieve
    withdrawal statistics" without data, also when the counts were already
    read. *)
Theorem stats_store_fault_answers_500 req db e made :
  handleValidationErrors req = None ->
  first_refusal 0 stats_calls = Some (e, made) ->
  exists w,
    run_stats req db
    = (Returned (json 500 false "Failed to retrieve withdrawal statistics"
                   NoData), w)
    /\ trace w = made
    /\ console w = [ConsoleError "Get withdrawal stats error:" e]
    /\ committed w = db.
Proof.
  intros Hv Hf. unfold_readers. rewrite Hv. cbn. cbn in Hf.
  destruct (faults 0%nat _); cbn;
    [|destruct (faults 1%nat _); cbn; [|destruct (faults 2%nat _); cbn]];
    inversion Hf; subst;
    (eexists; split; [reflexivity|]; cbn; repeat split).
Qed.

End Reading.

Section Composition.

Variable handleValidationErrors : Request -> option Response.
Variable faults : nat -> DbOp -> option JsError.
Variable now : nat -> Z.

Local Abbreviation run_update req db :=
  (updateWithdrawalStatus handleValidationErrors faults now req (initial db)).

Lemma run_fixed_parts req db :
  map fixed_part (Withdrawals (committed (snd (run_update req db))))
  = map fixed_part (Withdrawals db).
Proof.
  pose proof (update_cases handleValidationErrors faults now req db) as H.
  destruct (run_update req db) as [out w]. cbn [snd].
  destruct H as ([(Hc & _)|(wd & admin & s & _ & _ & Hc & _)] & _);
    rewrite Hc; [reflexivity|].
  rewrite effect_withdrawals, map_map. apply map_ext. intros x.
  destruct (w_id x =? w_id wd)%string; reflexivity.
Qed.

Lemma totals_of_fixed_parts ws : forall ws',
  map fixed_part ws' = map fixed_part ws ->
  List.length ws' = List.length ws /\ total_amount ws' = total_amount ws.
Proof.
  induction ws as [|x ws IH]; intros [|y ws'] H; try discriminate;
    [split; reflexivity|].
  cbn [map] in H. inversion H as [[Hid Htx Ham Hme Had Hcr Hus Hrest]].
  destruct (IH _ Hrest) as [Hl Ht]. cbn [List.length total_amount fold_right].
  fold (total_amount ws') (total_amount ws). now rewrite Hl, Ht, Ham.
Qed.

Lemma find_withdrawal_In id db wd :
  find_withdrawal id db = Some wd -> In wd (Withdrawals db).
Proof.
  unfold find_withdrawal. intros H. now apply find_some in H.
Qed.

(** X18.  A transition shows in the listing: after a status change was
    answered with 200, a listing filtered by the new status holds the
    withdrawal, with the new status and the time of processing. *)
Theorem changed_withdrawal_is_listed req db r w s :
  handleValidationErrors req = None ->
  run_update req db = (Returned r, w) ->
  status_code r = 200%nat ->
  body_status req = JString s ->
  forall validators store query,
    validators query = None ->
    query_status query = Some s ->
    given (query_userId query) = None ->
    store 0%nat (OpFindAll (Some s) None) = None ->
    exists rows w',
      getAllWithdrawals validators store query (initial (committed w))
      = (Returned (json 200 true "Withdrawals retrieved successfully"
                     (WithdrawalList rows (List.length rows))), w')
      /\ exists row,
           In row rows /\ l_id row = params_id req /\ l_status row = s
           /\ l_processed_at row = Some (now 0%nat).
Proof.
  intros Hv Hrun Hcode Hs validators store query Hq Hqs Hqu Hst.
  pose proof (update_cases handleValidationErrors faults now req db) as H.
  rewrite Hrun in H.
  destruct H as ([(_ & Hr & _)|(wd & admin & s' & Ha & _ & Hc & _)] & _);
    [destruct (Hr r eq_refl Hv Hcode)|].
  pose proof (find_withdrawal_effect _ now _ _ _ _ _ Ha) as Hstored.
  rewrite <- Hc in Hstored.
  destruct Ha as (_ & Hs' & Hin & Hf & _).
  rewrite Hs in Hs'. inversion Hs'; subst s'.
  assert (Hg : given (Some s) = Some s).
  { simpl in Hin. destruct Hin as [<-|[<-|[<-|[<-|[]]]]]; reflexivity. }
  set (stored := apply_update (built_update now req s admin) wd) in *.
  set (base := committed w) in *.
  assert (Hrow : In (listed base stored)
                    (map (listed base)
                       (order_desc (filter (matches (Some s) None)
                                           (Withdrawals base))))).
  { apply in_map.
    apply (Permutation_in _ (Permutation_sym (order_desc_perm _))).
    apply filter_In. split; [now apply find_withdrawal_In with (id := params_id req)|].
    apply matches_iff. split; [reflexivity | exact I]. }
  unfold getAllWithdrawals, Withdrawal_findAll, console_error, bind,
    try_catch, db_call, ret, throw.
  rewrite Hq. cbn.
  fold (given (query_status query)) (given (query_userId query)).
  rewrite Hqs, Hqu, Hg, Hst. cbn. fold base.
  set (rows := map (listed base) _) in *.
  exists rows. eexists. split.
  - destruct rows; [destruct Hrow | reflexivity].
  - exists (listed base stored). split; [exact Hrow|].
    cbn. split; [|split; reflexivity].
    now apply find_withdrawal_id with (db := db).
Qed.

(** X19.  A status change moves no money in the statistics: the number of
    withdrawals and the total amount that the statistics report are the
    same before and after any request for a status change, whether it was
    carried out, refused or failed. *)
Theorem status_change_keeps_totals req db :
  forall validators store query,
    validators query = None ->
    store 0%nat OpFindAllByStatus = None ->
    store 1%nat OpCount = None ->
    store 2%nat OpSum = None ->
    exists stats stats' totalWithdrawals totalAmount w1 w2,
      getWithdrawalStats validators store query (initial db)
      = (Returned (json 200 true "Withdrawal statistics retrieved successfully"
                     (StatsData stats totalWithdrawals totalAmount)), w1)
      /\ getWithdrawalStats validators store query
           (initial (committed (snd (run_update req db))))
         = (Returned (json 200 true
                        "Withdrawal statistics retrieved successfully"
                        (StatsData stats' totalWithdrawals totalAmount)), w2)
      /\ totalWithdrawals = List.length (Withdrawals db)
      /\ totalAmount = read_sum (total_amount (Withdrawals db)).
Proof.
  intros validators store query Hq H0 H1 H2.
  destruct (totals_of_fixed_parts _ _ (run_fixed_parts req db)) as [Hl Ht].
  unfold getWithdrawalStats, Withdrawal_findAll_by_status, Withdrawal_count,
    Withdrawal_sum, console_error, bind, try_catch, db_call, ret, throw.
  rewrite Hq. cbn. rewrite H0. cbn. rewrite H1. cbn. rewrite H2. cbn.
  rewrite !or_zero_sum, Hl, Ht.
  do 6 eexists. repeat split.
Qed.

End Composition.

(** ** The theorems at small stores *)

(** No withdrawal 9 is in the store. *)
Lemma unknown_withdrawal_answers_404_witness :
  updateWithdrawalStatus validators_pass no_faults clock
    (change "9" (JString "confirmed") (Some acting_admin)) (initial store)
  = (Returned (json 404 false "Withdrawal not found" NoData),
     {| committed := store; transaction := None;
        trace := [OpTransaction; OpFindByPk "9"; OpRollback];
        console := []; ticks := 0 |}).
Proof.
  exact (unknown_withdrawal_answers_404 validators_pass no_faults clock
           (change "9" (JString "confirmed") (Some acting_admin)) store
           eq_refl eq_refl eq_refl eq_refl eq_refl eq_refl).
Defined.

(** A change without a status, under validators that ask for one. *)
Lemma validation_refusal_rolls_back_witness :
  updateWithdrawalStatus validators_strict no_faults clock
    (change "1" JUndefined (Some acting_admin)) (initial store)
  = (Returned (json 400 false "Validation failed" NoData),
     {| committed := store; transaction := None;
        trace := [OpTransaction; OpRollback]; console := []; ticks := 0 |}).
Proof.
  exact (validation_refusal_rolls_back validators_strict no_faults clock
           (change "1" JUndefined (Some acting_admin)) store
           (json 400 false "Validation failed" NoData)
           eq_refl eq_refl eq_refl).
Defined.

(** Withdrawal 1 is confirmed, and completing withdrawal 2 again is
    refused: both answers leave the transaction closed. *)
Lemma answer_closes_transaction_witness :
  (transaction
     (snd (updateWithdrawalStatus validators_pass no_faults clock
             (change "1" (JString "confirmed") (Some acting_admin))
             (initial store))) = None
   /\ last (trace
              (snd (updateWithdrawalStatus validators_pass no_faults clock
                      (change "1" (JString "confirmed") (Some acting_admin))
                      (initial store)))) OpTransaction = OpCommit)
  /\ (transaction
        (snd (updateWithdrawalStatus validators_pass no_faults clock
                (change "2" (JString "completed") (Some acting_admin))
                (initial store))) = None
      /\ last (trace
                 (snd (updateWithdrawalStatus validators_pass no_faults clock
                         (change "2" (JString "completed") (Some acting_admin))
                         (initial store)))) OpTransaction = OpRollback).
Proof.
  split.
  - set (run := updateWithdrawalStatus validators_pass no_faults clock
                  (change "1" (JString "confirmed") (Some acting_admin))
                  (initial store)).
    destruct (answer_closes_transaction validators_pass no_faults clock
                (change "1" (JString "confirmed") (Some acting_admin)) store
                (answer (fst run)) (snd run) eq_refl) as (Hclosed & _).
    split; [exact Hclosed | reflexivity].
  - set (run := updateWithdrawalStatus validators_pass no_faults clock
                  (change "2" (JString "completed") (Some acting_admin))
                  (initial store)).
    destruct (answer_closes_transaction validators_pass no_faults clock
                (change "2" (JString "completed") (Some acting_admin)) store
                (answer (fst run)) (snd run) eq_refl) as (Hclosed & _).
    split; [exact Hclosed | reflexivity].
Defined.

(** With a store that answers there is a response; without a connection
    the error of the store is thrown. *)
Lemma answers_unless_transaction_fails_witness :
  (exists r w,
      updateWithdrawalStatus validators_pass no_faults clock
        (change "1" (JString "failed") (Some acting_admin)) (initial store)
      = (Returned r, w))
  /\ updateWithdrawalStatus validators_pass no_connection clock
       (change "1" (JString "failed") (Some acting_admin)) (initial store)
     = (Thrown (Error "connection refused"),
        {| committed := store; transaction := None; trace := [OpTransaction];
           console := []; ticks := 0 |}).
Proof.
  split.
  - exact (proj1 (answers_unless_transaction_fails validators_pass no_faults
                    clock (change "1" (JString "failed") (Some acting_admin))
                    store)
             eq_refl (fun _ => eq_refl)).
  - exact (proj2 (answers_unless_transaction_fails validators_pass
                    no_connection clock
                    (change "1" (JString "failed") (Some acting_admin)) store)
             (Error "connection refused") eq_refl).
Defined.

(** The refund of withdrawal 1 is written, its update hits a deadlock: the
    owner keeps the balance of 100. *)
Lemma store_fault_answers_500_witness :
  exists e w,
    updateWithdrawalStatus validators_pass update_fails clock
      (change "1" (JString "failed") (Some acting_admin)) (initial store)
    = (Returned (json 500 false "Failed to update withdrawal status" NoData), w)
    /\ committed w = store
    /\ transaction w = None
    /\ console w = [ConsoleError "Update withdrawal status error:" e]
    /\ ~ In OpCommit (trace w)
    /\ exists n op, op <> OpCommit /\ update_fails n op = Some e.
Proof.
  apply (store_fault_answers_500 validators_pass update_fails clock
           (change "1" (JString "failed") (Some acting_admin)) store
           withdrawal_1 acting_admin "failed").
  - unfold Admissible. simpl. repeat split; auto.
  - reflexivity.
  - reflexivity.
  - intros n. reflexivity.
Defined.

(** Withdrawal 1 is confirmed: one write, and the users as before. *)
Lemma transition_without_refund_witness :
  exists out w,
    updateWithdrawalStatus validators_pass no_faults clock
      (change "1" (JString "confirmed") (Some acting_admin)) (initial store)
    = (out, w)
    /\ Users (committed w) = Users store
    /\ out = Returned
               (success_response clock
                  (change "1" (JString "confirmed") (Some acting_admin)) store
                  withdrawal_1 acting_admin "confirmed")
       /\ trace w = [OpTransaction; OpFindByPk "1"; OpWithdrawalUpdate "1";
                     OpCommit]
       /\ (exists stored,
              find_withdrawal "1" (committed w) = Some stored
              /\ status stored = "confirmed").
Proof.
  apply (transition_without_refund validators_pass no_faults clock
           (change "1" (JString "confirmed") (Some acting_admin)) store
           withdrawal_1 acting_admin "confirmed").
  - unfold Admissible. simpl. repeat split; auto.
  - left. reflexivity.
Defined.

(** The statuses of the store are among the five, before and after
    withdrawal 3 is rejected. *)
Lemma statuses_stay_valid_witness :
  Forall (fun r => In (status r) statuses)
    (Withdrawals
       (committed
          (snd (updateWithdrawalStatus validators_pass no_faults clock
                  (change "3" (JString "rejected") (Some acting_admin))
                  (initial store))))).
Proof.
  apply (statuses_stay_valid validators_pass no_faults clock
           (change "3" (JString "rejected") (Some acting_admin)) store).
  repeat (apply Forall_cons; [simpl; tauto|]). apply Forall_nil.
Defined.

(** Withdrawal 1 has failed and its owner has 150; a second request, to
    reject it, changes nothing. *)
Lemma finished_withdrawal_stays_witness :
  option_map walletBalance
    (find_user "7"
       (committed
          (snd (updateWithdrawalStatus validators_pass no_faults clock
                  (change "1" (JString "failed") (Some acting_admin))
                  (initial store))))) = Some 150
  /\ committed
       (snd (updateWithdrawalStatus validators_pass no_faults clock
               (change "1" (JString "rejected") (Some acting_admin))
               (initial
                  (committed
                     (snd (updateWithdrawalStatus validators_pass no_faults
                             clock
                             (change "1" (JString "failed")
                                (Some acting_admin))
                             (initial store)))))))
     = committed
         (snd (updateWithdrawalStatus validators_pass no_faults clock
                 (change "1" (JString "failed") (Some acting_admin))
                 (initial store))).
Proof.
  split; [reflexivity|].
  set (run := updateWithdrawalStatus validators_pass no_faults clock
                (change "1" (JString "failed") (Some acting_admin))
                (initial store)).
  assert (Ht : terminal "failed") by (unfold terminal; simpl; auto).
  exact (proj1 (finished_withdrawal_stays validators_pass no_faults clock
                  (change "1" (JString "failed") (Some acting_admin)) store
                  (answer (fst run)) (snd run) "failed"
                  eq_refl eq_refl eq_refl eq_refl Ht
                  validators_pass no_faults clock
                  (change "1" (JString "rejected") (Some acting_admin))
                  eq_refl)).
Defined.

(** The balance of the owner of withdrawal 1 moves when it fails. *)
Lemma refund_only_with_recorded_refusal_witness :
  exists stored r,
    fst (updateWithdrawalStatus validators_pass no_faults clock
           (change "1" (JString "failed") (Some acting_admin))
           (initial store)) = Returned r
    /\ status_code r = 200%nat
    /\ find_withdrawal "1"
         (committed
            (snd (updateWithdrawalStatus validators_pass no_faults clock
                    (change "1" (JString "failed") (Some acting_admin))
                    (initial store)))) = Some stored
    /\ status stored = "failed".
Proof.
  destruct (refund_only_with_recorded_refusal validators_pass no_faults clock
              (change "1" (JString "failed") (Some acting_admin)) store
              ltac:(discriminate))
    as (wd & stored & s & r & Hr & Hcode & Hs & _ & _ & _ & Hstored & Hst).
  exists stored, r. injection Hs as <-.
  split; [exact Hr|]. split; [exact Hcode|]. split; [exact Hstored|].
  exact Hst.
Defined.

(** The owner of withdrawal 4 is not a user: rejecting it is answered 200
    and logs the failed notification. *)
Lemma notification_failure_is_isolated_witness :
  exists w,
    updateWithdrawalStatus validators_pass no_faults clock
      (change "4" (JString "rejected") (Some acting_admin))
      (initial store_with_orphan)
    = (Returned
         (success_response clock
            (change "4" (JString "rejected") (Some acting_admin))
            store_with_orphan withdrawal_4 acting_admin "rejected"), w)
    /\ console w
       = [ConsoleError "Failed to send notification:"
            (TypeError "Cannot read properties of null (reading 'email')")]
    /\ find_withdrawal "4" (committed w)
       = Some (apply_update
                 (built_update clock
                    (change "4" (JString "rejected") (Some acting_admin))
                    "rejected" acting_admin) withdrawal_4)
    /\ Users (committed w) = Users store_with_orphan.
Proof.
  apply (notification_failure_is_isolated validators_pass no_faults clock
           (change "4" (JString "rejected") (Some acting_admin))
           store_with_orphan withdrawal_4 acting_admin "rejected").
  - unfold Admissible. simpl. repeat split; auto.
  - reflexivity.
  - reflexivity.
Defined.

(** Withdrawal 4 carries the note "checked": completing it with empty notes
    keeps the note, completing it with the note "paid out" replaces it. *)
Lemma admin_notes_kept_unless_given_witness :
  (exists stored,
      find_withdrawal "4"
        (committed
           (snd (updateWithdrawalStatus validators_pass no_faults clock
                   (change_with_notes "4" (JString "completed") (Some ""))
                   (initial store_with_orphan)))) = Some stored
      /\ admin_notes stored = Some "checked")
  /\ (exists stored,
         find_withdrawal "4"
           (committed
              (snd (updateWithdrawalStatus validators_pass no_faults clock
                      (change_with_notes "4" (JString "completed")
                         (Some "paid out"))
                      (initial store_with_orphan)))) = Some stored
         /\ admin_notes stored = Some "paid out").
Proof.
  split.
  - set (run := updateWithdrawalStatus validators_pass no_faults clock
                  (change_with_notes "4" (JString "completed") (Some ""))
                  (initial store_with_orphan)).
    destruct (admin_notes_kept_unless_given validators_pass no_faults clock
                (change_with_notes "4" (JString "completed") (Some ""))
                store_with_orphan (answer (fst run)) (snd run)
                eq_refl eq_refl eq_refl)
      as (wd & stored & Hwd & Hstored & Hnotes).
    exists stored. inversion Hwd; subst wd. split; assumption.
  - set (run := updateWithdrawalStatus validators_pass no_faults clock
                  (change_with_notes "4" (JString "completed")
                     (Some "paid out"))
                  (initial store_with_orphan)).
    destruct (admin_notes_kept_unless_given validators_pass no_faults clock
                (change_with_notes "4" (JString "completed")
                   (Some "paid out"))
                store_with_orphan (answer (fst run)) (snd run)
                eq_refl eq_refl eq_refl)
      as (wd & stored & Hwd & Hstored & Hnotes).
    exists stored. split; assumption.
Defined.

(** The store loses the connection during the listing. *)
Lemma listing_store_fault_answers_500_witness :
  exists w,
    getAllWithdrawals validators_pass query_fails (query (Some "pending"))
      (initial store)
    = (Returned (json 500 false "Failed to retrieve withdrawals" NoData), w)
    /\ console w
       = [ConsoleError "Get all withdrawals error:" (Error "connection lost")]
    /\ committed w = store.
Proof.
  exact (listing_store_fault_answers_500 validators_pass query_fails
           (query (Some "pending")) store (Error "connection lost")
           eq_refl eq_refl).
Defined.

(** A listing with an empty status filter holds the three withdrawals. *)
Lemma empty_filter_lists_everything_witness :
  exists rows w,
    getAllWithdrawals validators_pass no_faults (query (Some ""))
      (initial store)
    = (Returned (json 200 true
                   (match rows with
                    | [] => "No withdrawals found"
                    | _ => "Withdrawals retrieved successfully"
                    end)
                   (WithdrawalList (map (listed store) rows)
                      (List.length rows))), w)
    /\ Permutation rows (Withdrawals store)
    /\ List.length rows = 3%nat.
Proof.
  exact (empty_filter_lists_everything validators_pass no_faults
           (query (Some "")) store eq_refl eq_refl eq_refl eq_refl).
Defined.

(** The groups and the count are read, the sum times out. *)
Lemma stats_store_fault_answers_500_witness :
  exists w,
    getWithdrawalStats validators_pass sum_fails (query None) (initial store)
    = (Returned (json 500 false "Failed to retrieve withdrawal statistics"
                   NoData), w)
    /\ trace w = [OpFindAllByStatus; OpCount; OpSum]
    /\ console w
       = [ConsoleError "Get withdrawal stats error:"
            (Error "statement timeout")]
    /\ committed w = store.
Proof.
  exact (stats_store_fault_answers_500 validators_pass sum_fails
           (query None) store (Error "statement timeout")
           [OpFindAllByStatus; OpCount; OpSum] eq_refl eq_refl).
Defined.

(** Withdrawal 1 is confirmed and then found among the confirmed ones. *)
Lemma changed_withdrawal_is_listed_witness :
  exists rows w',
    getAllWithdrawals validators_pass no_faults (query (Some "confirmed"))
      (initial
         (committed
            (snd (updateWithdrawalStatus validators_pass no_faults clock
                    (change "1" (JString "confirmed") (Some acting_admin))
                    (initial store)))))
    = (Returned (json 200 true "Withdrawals retrieved successfully"
                   (WithdrawalList rows (List.length rows))), w')
    /\ exists row,
         In row rows /\ l_id row = "1" /\ l_status row = "confirmed"
         /\ l_processed_at row = Some 5000.
Proof.
  set (run := updateWithdrawalStatus validators_pass no_faults clock
                (change "1" (JString "confirmed") (Some acting_admin))
                (initial store)).
  exact (changed_withdrawal_is_listed validators_pass no_faults clock
           (change "1" (JString "confirmed") (Some acting_admin)) store
           (answer (fst run)) (snd run) "confirmed"
           eq_refl eq_refl eq_refl eq_refl
           validators_pass no_faults (query (Some "confirmed"))
           eq_refl eq_refl eq_refl eq_refl).
Defined.

(** Three withdrawals of 140 in all, before and after withdrawal 1 fails. *)
Lemma status_change_keeps_totals_witness :
  exists stats stats' w1 w2,
    getWithdrawalStats validators_pass no_faults (query None) (initial store)
    = (Returned (json 200 true "Withdrawal statistics retrieved successfully"
                   (StatsData stats 3 (Finite 140 0))), w1)
    /\ getWithdrawalStats validators_pass no_faults (query None)
         (initial
            (committed
               (snd (updateWithdrawalStatus validators_pass no_faults clock
                       (change "1" (JString "failed") (Some acting_admin))
                       (initial store)))))
       = (Returned (json 200 true
                      "Withdrawal statistics retrieved successfully"
                      (StatsData stats' 3 (Finite 140 0))), w2).
Proof.
  destruct (status_change_keeps_totals validators_pass no_faults clock
              (change "1" (JString "failed") (Some acting_admin)) store
              validators_pass no_faults (query None)
              eq_refl eq_refl eq_refl eq_refl)
    as (stats & stats' & n & total & w1 & w2 & H1 & H2 & Hn & Ht).
  exists stats, stats', w1, w2. rewrite Hn, Ht in H1, H2.
  split; [exact H1 | exact H2].
Defined.

End AdminWithdrawalMore.

(* ================================================================== *)
(** * The accrual e-mail: what reaches the mail *)
(* ================================================================== *)

Module AccrualEmailMore.
Import Js AccrualEmail StringFacts AccrualEmailFacts.

(** An accrual whose plan name carries markup, and one of a third of a
    cent under two thirds, 0.67 when rounded. *)
Definition marked_accrual : Args :=
  {| email := "ada@example.org"; planName := "<b>Gold</b>";
     roiAmount := twelve_and_a_half; transactionId := "TX-9"; date := 0;
     investmentId := "INV-3" |}.

Definition two_thirds_accrual : Args :=
  {| email := "ada@example.org"; planName := "Gold";
     roiAmount := Finite 5457 (-13); transactionId := "TX-9"; date := 0;
     investmentId := "INV-3" |}.

Lemma prefix_app pat : forall a b,
  prefix pat a = true -> prefix pat (a ++ b) = true.
Proof.
  induction pat as [|p pat IH]; intros a b H;
    [destruct a, b; reflexivity|].
  destruct a as [|x a]; [discriminate|]. simpl in *.
  destruct (ascii_dec p x); [now apply IH | discriminate].
Qed.

Lemma occurrences_app_ge pat a b :
  pat <> "" ->
  (occurrences pat a + occurrences pat b <= occurrences pat (a ++ b))%nat.
Proof.
  intros Hne. induction a as [|x a IH].
  - rewrite (occurrences_nil _ Hne). simpl. lia.
  - change (String x a ++ b) with (String x (a ++ b)). cbn [occurrences].
    destruct (prefix pat (String x a)) eqn:Hp.
    + change (String x (a ++ b)) with (String x a ++ b).
      rewrite (prefix_app _ _ b Hp). lia.
    + destruct (prefix pat (String x (a ++ b))); lia.
Qed.

Lemma occurrences_skip pat h x rest :
  pat <> "" ->
  (occurrences pat x + occurrences pat rest
   <= occurrences pat (h ++ x ++ rest))%nat.
Proof.
  intros Hne.
  pose proof (occurrences_app_ge pat h (x ++ rest) Hne).
  pose proof (occurrences_app_ge pat x rest Hne). lia.
Qed.

Section Mail.

Variable rt : Runtime.
Variable a : Args.

(** X20.  The fields reach the mail as they are, nothing is escaped or cut:
    any text occurs in the HTML at least as often as it occurs in the plan
    name, twice, in the formatted amount, twice, in the transaction id, in
    the investment id, in the printed date and in the year together. *)
Theorem fields_reach_mail_verbatim pat :
  pat <> "" ->
  (2 * occurrences pat (planName a)
   + 2 * occurrences pat (toFixed (number_toString rt) (roiAmount a) 2)
   + occurrences pat (transactionId a)
   + occurrences pat (investmentId a)
   + occurrences pat (toLocaleDateString rt (date a))
   + occurrences pat (decimal (getFullYear rt))
   <= occurrences pat (html (build_mailOptions rt a)))%nat.
Proof.
  intros Hne. cbn [html build_mailOptions]. unfold render_html.
  repeat match goal with
         | |- context [occurrences pat (?h ++ ?x ++ ?rest)] =>
             pose proof (occurrences_skip pat h x rest Hne);
             let v := fresh "v" in
             set (v := occurrences pat (h ++ x ++ rest)) in *; clearbody v
         | H : context [occurrences pat (?h ++ ?x ++ ?rest)] |- _ =>
             pose proof (occurrences_skip pat h x rest Hne);
             let v := fresh "v" in
             set (v := occurrences pat (h ++ x ++ rest)) in *; clearbody v
         end.
  lia.
Qed.

(** X21.  The amount is rounded to the nearest cent: for an amount below
    10^21 in magnitude the digits printed around the point, read as a
    number of cents, differ from a hundred times the magnitude of the
    amount by a half at most, and a half is rounded away from zero. *)
Theorem amount_rounded_to_nearest_cent mant expo :
  roiAmount a = Finite mant expo ->
  at_least (Z.abs mant) expo (10 ^ 21) = false ->
  exists int frac cents,
    toFixed (number_toString rt) (roiAmount a) 2
    = (if mant <? 0 then "-" else "") ++ int ++ "." ++ frac
    /\ String.length frac = 2%nat
    /\ number_of (int ++ frac) = Some cents
    /\ let scale := 2 ^ Z.max 0 (- expo) in
       let whole := Z.abs mant * 2 ^ Z.max 0 expo in
       - scale <= 2 * (100 * whole - Z.of_N cents * scale) < scale.
Proof.
  intros Ha Hb. rewrite Ha. unfold toFixed. rewrite Hb. cbv zeta.
  set (n := scaled_round (Z.abs mant) expo 2).
  set (m := pad_zeros (2 + 1) (decimal (Z.to_N n))).
  assert (Hlen : (3 <= String.length m)%nat) by apply pad_zeros_length.
  assert (Hn : 0 <= n).
  { unfold n, scaled_round. destruct (0 <=? expo) eqn:E.
    - apply Z.leb_le in E. apply Z.mul_nonneg_nonneg; [|lia].
      apply Z.mul_nonneg_nonneg; [lia|]. apply Z.pow_nonneg. lia.
    - apply Z.leb_gt in E. apply Z.div_pos.
      + assert (0 < 2 ^ (- expo)) by (apply Z.pow_pos_nonneg; lia). lia.
      + assert (0 < 2 ^ (- expo)) by (apply Z.pow_pos_nonneg; lia). lia. }
  exists (substring 0 (String.length m - 2) m),
         (substring (String.length m - 2) 2 m), (Z.to_N n).
  split; [reflexivity|].
  split; [apply substring_length; lia|].
  split.
  - rewrite substring_split by lia. unfold m, pad_zeros.
    apply number_of_zeros; [apply decimal_not_empty | apply number_of_decimal].
  - cbv zeta. rewrite Z2N.id by exact Hn. unfold n, scaled_round.
    destruct (0 <=? expo) eqn:E.
    + apply Z.leb_le in E.
      rewrite (Z.max_l 0 (- expo)) by lia. rewrite (Z.max_r 0 expo) by lia.
      change (10 ^ Z.of_nat 2) with 100. change (2 ^ 0) with 1. lia.
    + apply Z.leb_gt in E.
      rewrite (Z.max_r 0 (- expo)) by lia. rewrite (Z.max_l 0 expo) by lia.
      change (10 ^ Z.of_nat 2) with 100. change (2 ^ 0) with 1.
      assert (Hd : 0 < 2 ^ (- expo)) by (apply Z.pow_pos_nonneg; lia).
      set (d := 2 ^ (- expo)) in *. set (x := Z.abs mant).
      pose proof (Z.div_mod (2 * x * 100 + d) (2 * d) ltac:(lia)) as Hdm.
      pose proof (Z.mod_pos_bound (2 * x * 100 + d) (2 * d) ltac:(lia)) as Hm.
      nia.
Qed.

End Mail.

(** The markup of the plan name is in the mail twice. *)
Lemma fields_reach_mail_verbatim_witness :
  (2 <= occurrences "<b>Gold</b>"
          (html (build_mailOptions sample_runtime marked_accrual)))%nat.
Proof.
  pose proof (fields_reach_mail_verbatim sample_runtime marked_accrual
                "<b>Gold</b>" ltac:(discriminate)) as H.
  change (occurrences "<b>Gold</b>" (planName marked_accrual)) with 1%nat in H.
  lia.
Defined.

(** 5457 / 8192 is 0.66613...: 67 cents. *)
Lemma amount_rounded_to_nearest_cent_witness :
  exists int frac cents,
    toFixed (number_toString sample_runtime) (roiAmount two_thirds_accrual) 2
    = int ++ "." ++ frac
    /\ String.length frac = 2%nat
    /\ number_of (int ++ frac) = Some cents
    /\ - 8192 <= 2 * (100 * 5457 - Z.of_N cents * 8192) < 8192.
Proof.
  exact (amount_rounded_to_nearest_cent sample_runtime two_thirds_accrual
           5457 (-13) eq_refl eq_refl).
Defined.

End AccrualEmailMore.
